(** * multiChat: a websocket front-end relaying chat between a game server
      and a MultiChat hub

    Shallow embedding of [multiChat/multiChat.py] and [multiChat/__init__.py].

    Text is modelled by [string] (the UTF-8 bytes of a Python [str]), Python
    integers by [Z], and the values returned by [json.loads] by the inductive
    type [json].  The object [MultiChatWS] is a record; a slot is a function
    from the object before the call to an [outcome]: the object after the
    call, the calls made on the collaborators (logger, mcBasicLib, websocket)
    in program order, and either the returned value or the exception that
    left the slot. *)

From Stdlib Require Import String Ascii List ZArith Bool Lia Sorted.
From Stdlib Require Import DecimalString SpecFloat.
Import ListNotations.
Set Warnings "-register-all".
Open Scope string_scope.
Open Scope Z_scope.

(** ** Python values *)

(** What [json.loads] / [json.load] can return.  A dict is kept as the list
    of its items in insertion order (the order [json.dumps] writes them in);
    keys are looked up from the front. *)
Inductive json : Type :=
| JNone
| JBool (b : bool)
| JInt (z : Z)
| JFloat (f : spec_float)
| JStr (s : string)
| JList (l : list json)
| JDict (d : list (string * json)).

Inductive exn : Type :=
| JSONDecodeError
| KeyError (k : string)
| TypeError
| AttributeError
| UnboundLocalError
| OSError.

Inductive result (A : Type) : Type :=
| Ok (a : A)
| Raise (e : exn).
Arguments Ok {A} a.
Arguments Raise {A} e.

Fixpoint dict_get (d : list (string * json)) (k : string) : option json :=
  match d with
  | [] => None
  | (k', v) :: d' => if String.eqb k' k then Some v else dict_get d' k
  end.

(** [k in d] for a dict [d]. *)
Definition dict_contains (d : list (string * json)) (k : string) : bool :=
  match dict_get d k with Some _ => true | None => false end.

(** [v[k]] for a string key [k]: only a dict can be subscripted by a [str];
    a list or a [str] wants integer indices and the other values are not
    subscriptable at all. *)
Definition getitem (v : json) (k : string) : result json :=
  match v with
  | JDict d =>
      match dict_get d k with
      | Some x => Ok x
      | None => Raise (KeyError k)
      end
  | _ => Raise TypeError
  end.

(** [bool(v)], as taken by [if v] and [and]. *)
Definition truthy (v : json) : bool :=
  match v with
  | JNone => false
  | JBool b => b
  | JInt z => negb (z =? 0)
  | JFloat (S754_zero _) => false
  | JFloat _ => true
  | JStr s => negb (String.eqb s "")
  | JList l => match l with [] => false | _ => true end
  | JDict d => match d with [] => false | _ => true end
  end.

(** [v == s] for a [str] constant [s]. *)
Definition eq_str (v : json) (s : string) : bool :=
  match v with
  | JStr s' => String.eqb s' s
  | _ => false
  end.

(** [str(n)] for an [int]. *)
Definition str_of_int (n : Z) : string :=
  NilZero.string_of_int (Z.to_int n).

(** A text between double quotes. *)
Definition dquote : ascii := Ascii false true false false false true false false.
Definition quoted (s : string) : string :=
  String dquote (s ++ String dquote EmptyString).

(** [s.rstrip(c)] for a one-character [c]. *)
Fixpoint rstrip (c : ascii) (s : string) : string :=
  match s with
  | EmptyString => EmptyString
  | String a t =>
      match rstrip c t with
      | EmptyString => if Ascii.eqb a c then EmptyString else String a EmptyString
      | t' => String a t'
      end
  end.

(** The characters of a [str], each as a one-character text: a byte of the
    form 10xxxxxx continues the character begun before it. *)
Definition is_continuation (a : ascii) : bool :=
  match a with
  | Ascii _ _ _ _ _ _ false true => true
  | _ => false
  end.

Fixpoint chars (s : string) : list string :=
  match s with
  | EmptyString => []
  | String a t =>
      match chars t with
      | [] => [String a EmptyString]
      | c :: cs =>
          match c with
          | String b _ =>
              if is_continuation b then String a c :: cs
              else String a EmptyString :: c :: cs
          | EmptyString => String a EmptyString :: cs
          end
      end
  end.

(** [for x in v]: the items a [for] loop visits, when [v] is iterable. *)
Definition iterate (v : json) : result (list json) :=
  match v with
  | JList l => Ok l
  | JStr s => Ok (map JStr (chars s))
  | JDict d => Ok (map (fun kv => JStr (fst kv)) d)
  | _ => Raise TypeError
  end.

(** ** The Python runtime used by the module

    [json.loads], [json.dumps] and the [str()] that [str.format] applies to
    a value that is not a [str] belong to the Python library, not to this
    repository: the handlers are stated over any implementation of them. *)
Class PyRuntime : Type := {
  json_loads : string -> result json;
  json_dumps : json -> string;
  str_of_value : json -> string
}.

(** [str(v)]: a [str] is its own text. *)
Definition py_str `{PyRuntime} (v : json) : string :=
  match v with
  | JStr s => s
  | _ => str_of_value v
  end.

(** ** Collaborators *)

(** A player of mcBasicLib. *)
Record Player : Type := {
  name : string;
  is_console : bool
}.

Inductive level : Type := debug | info | warning | error.

(** First argument of [utils.tell]: the selector ['@a'] or a player. *)
Inductive recipient : Type :=
| at_a
| to_player (p : Player).

(** One call on a collaborator. *)
Inductive call : Type :=
| logger (l : level) (msg : string)
| tell (r : recipient) (msg : string) (color : option string)
| sendTextMessage (data : string)
| ws_open (url : string).

(** [QTimer]: its interval and whether it is running. *)
Record QTimer : Type := {
  interval : Z;
  isActive : bool
}.

(** ** The object *)

Definition RETRY_INTERVAL_MIN : Z := 5000.
Definition RETRY_INTERVAL_MAX : Z := 3600 * 1000.
Definition SUPPORTED_LANGUAGES : list string := ["en"; "zh-cn"].

Record MultiChatWS : Type := {
  config : json;
  url : string;
  key : json;
  server_name : json;
  do_listen : json;
  do_post : json;
  ignore_prefix : json;
  lang : string;
  ws_valid : bool;
  retry_interval : Z;
  retry_timer : QTimer
}.

Definition set_ws_valid (b : bool) (self : MultiChatWS) : MultiChatWS :=
  {| config := config self; url := url self; key := key self;
     server_name := server_name self; do_listen := do_listen self;
     do_post := do_post self; ignore_prefix := ignore_prefix self;
     lang := lang self; ws_valid := b;
     retry_interval := retry_interval self;
     retry_timer := retry_timer self |}.

Definition set_retry_interval (n : Z) (self : MultiChatWS) : MultiChatWS :=
  {| config := config self; url := url self; key := key self;
     server_name := server_name self; do_listen := do_listen self;
     do_post := do_post self; ignore_prefix := ignore_prefix self;
     lang := lang self; ws_valid := ws_valid self;
     retry_interval := n;
     retry_timer := retry_timer self |}.

Definition set_retry_timer (t : QTimer) (self : MultiChatWS) : MultiChatWS :=
  {| config := config self; url := url self; key := key self;
     server_name := server_name self; do_listen := do_listen self;
     do_post := do_post self; ignore_prefix := ignore_prefix self;
     lang := lang self; ws_valid := ws_valid self;
     retry_interval := retry_interval self;
     retry_timer := t |}.

(** ** Slots as computations *)

Inductive outcome (A : Type) : Type :=
| Returned (a : A) (self : MultiChatWS) (calls : list call)
| Raised (e : exn) (self : MultiChatWS) (calls : list call).
Arguments Returned {A} a self calls.
Arguments Raised {A} e self calls.

Definition M (A : Type) : Type := MultiChatWS -> outcome A.

Definition ret {A} (a : A) : M A := fun self => Returned a self [].

Definition bind {A B} (m : M A) (k : A -> M B) : M B :=
  fun self =>
    match m self with
    | Returned a self1 c1 =>
        match k a self1 with
        | Returned b self2 c2 => Returned b self2 (c1 ++ c2)
        | Raised e self2 c2 => Raised e self2 (c1 ++ c2)
        end
    | Raised e self1 c1 => Raised e self1 c1
    end.

Notation "x <- m ;; k" := (bind m (fun x => k))
  (at level 61, m at next level, right associativity).
Notation "m ;; k" := (bind m (fun _ => k))
  (at level 61, right associativity).

Definition raise {A} (e : exn) : M A := fun self => Raised e self [].
Definition emit (c : call) : M unit := fun self => Returned tt self [c].
Definition get {A} (f : MultiChatWS -> A) : M A :=
  fun self => Returned (f self) self [].
Definition modify (f : MultiChatWS -> MultiChatWS) : M unit :=
  fun self => Returned tt (f self) [].
Definition lift {A} (r : result A) : M A :=
  match r with
  | Ok a => ret a
  | Raise e => raise e
  end.

Definition state_of {A} (o : outcome A) : MultiChatWS :=
  match o with
  | Returned _ self _ => self
  | Raised _ self _ => self
  end.

Definition calls_of {A} (o : outcome A) : list call :=
  match o with
  | Returned _ _ c => c
  | Raised _ _ c => c
  end.

Definition raises {A} (o : outcome A) : bool :=
  match o with
  | Returned _ _ _ => false
  | Raised _ _ _ => true
  end.

(** The same sequencing for computations that touch no object yet. *)
Definition result_bind {A B} (r : result A) (k : A -> result B) : result B :=
  match r with
  | Ok a => k a
  | Raise e => Raise e
  end.

Notation "'try' x <- r 'in' k" := (result_bind r (fun x => k))
  (at level 10, x name, r at level 100, k at level 200).

(** [QTimer] methods. *)
Definition setInterval (msec : Z) (t : QTimer) : QTimer :=
  {| interval := msec; isActive := isActive t |}.
Definition start (t : QTimer) : QTimer :=
  {| interval := interval t; isActive := true |}.
Definition stop (t : QTimer) : QTimer :=
  {| interval := interval t; isActive := false |}.

Definition on_timer (f : QTimer -> QTimer) : M unit :=
  modify (fun self => set_retry_timer (f (retry_timer self)) self).

(** The loop [for prefix in self.ignore_prefix: if text.startswith(prefix):
    return], run over the items of the iterable: [Ok true] when it returned
    from the slot, [Ok false] when it fell through.  [str.startswith] takes
    a [str] (or a tuple, which JSON never yields). *)
Fixpoint startswith_any (text : string) (prefixes : list json) : result bool :=
  match prefixes with
  | [] => Ok false
  | JStr p :: rest =>
      if String.prefix p text then Ok true else startswith_any text rest
  | _ :: _ => Raise TypeError
  end.

(** ** The slots of [MultiChatWS] *)

Section Slots.
Context `{PyRuntime}.

Definition post (message : string) : M unit :=
  emit (tell at_a message (Some "#777777")).

Definition send_msg (message : string) : M unit :=
  valid <- get ws_valid ;;
  if valid then
    let obj := JDict [("action", JStr "client-message");
                      ("content", JStr message)] in
    let data := json_dumps obj in
    emit (logger debug ("WebSocket sending: " ++ data)) ;;
    emit (sendTextMessage data)
  else
    emit (logger warning "Tried to write websocket when not available").

Definition on_connected : M unit :=
  u <- get url ;;
  emit (logger info ("Successfully connected to: " ++ u)) ;;
  sn <- get server_name ;;
  client_name <-
    (if truthy sn then
       match sn with
       | JStr s => ret ("MC-" ++ s)
       | _ => raise TypeError
       end
     else ret "MC") ;;
  k <- get key ;;
  let register_obj := JDict [("action", JStr "register");
                             ("client-name", JStr client_name);
                             ("secret-key", k)] in
  let register_str := json_dumps register_obj in
  emit (logger debug ("WebSocket sending:  " ++ register_str)) ;;
  emit (sendTextMessage register_str).

Definition on_connection_broken : M unit :=
  r <- get retry_interval ;;
  emit (logger info ("Connection broken, retry after " ++ str_of_int r ++ "ms")) ;;
  r <- get retry_interval ;;
  emit (tell at_a ("multichat connection broken, retry after "
                     ++ str_of_int r ++ "ms") None) ;;
  modify (set_ws_valid false) ;;
  r <- get retry_interval ;;
  on_timer (setInterval r) ;;
  on_timer start ;;
  r <- get retry_interval ;;
  modify (set_retry_interval (Z.min RETRY_INTERVAL_MAX (r * 2))).

Definition on_retry_timer : M unit :=
  on_timer stop ;;
  emit (logger info "Connecting to multichat server") ;;
  emit (tell at_a "multichat: connecting to server" None) ;;
  u <- get url ;;
  emit (ws_open u).

Definition on_recv (message : string) : M unit :=
  emit (logger debug ("WebSocket received: " ++ message)) ;;
  data <- lift (json_loads message) ;;
  action <- lift (getitem data "action") ;;
  (if eq_str action "register-ack" then
     emit (logger info "Successfully registered.") ;;
     emit (tell at_a "multichat: server connected" None) ;;
     modify (set_ws_valid true) ;;
     modify (set_retry_interval RETRY_INTERVAL_MIN)
   else ret tt) ;;
  action <- lift (getitem data "action") ;;
  dp <- get do_post ;;
  if eq_str action "forwarding-message" && truthy dp then
    source <- lift (getitem data "source-client-name") ;;
    content <- lift (getitem data "content") ;;
    let post_str := "[" ++ py_str source ++ "]" ++ py_str content in
    post post_str
  else ret tt.

Definition on_player_input (pair : Player * string) : M unit :=
  emit (logger debug "MultiChat.on_player_input called") ;;
  let (player, text) := pair in
  if String.eqb text "!multichat connect" then
    valid <- get ws_valid ;;
    if valid then
      emit (tell (to_player player) "multichat is already connected to server" None)
    else on_retry_timer
  else
    dl <- get do_listen ;;
    if truthy dl then
      if is_console player then ret tt
      else
        ip <- get ignore_prefix ;;
        prefixes <- lift (iterate ip) ;;
        returned <- lift (startswith_any text prefixes) ;;
        if returned then ret tt
        else
          let msg := "<" ++ name player ++ "> " ++ text in
          send_msg msg
    else ret tt.

Definition on_player_login (player : Player) : M unit :=
  emit (logger debug "MultiChat.on_player_login called") ;;
  let player := name player in
  l <- get lang ;;
  msg <-
    (if String.eqb l "en" then ret (player ++ " joined the game")
     else if String.eqb l "zh-cn" then ret (player ++ "加入了游戏")
     else raise UnboundLocalError) ;;
  send_msg msg.

Definition on_player_logout (player : Player) : M unit :=
  emit (logger debug "MultiChat.on_player_logout called") ;;
  let player := name player in
  l <- get lang ;;
  msg <-
    (if String.eqb l "en" then ret (player ++ " left the game")
     else if String.eqb l "zh-cn" then ret (player ++ "退出了游戏")
     else raise UnboundLocalError) ;;
  send_msg msg.

(** An advancement or death object of mcBasicLib is taken as its
    [format(lang=...)] method. *)
Definition on_advancement (advc : string -> string) : M unit :=
  emit (logger debug "MultiChat.on_advancement called") ;;
  l <- get lang ;;
  let msg := advc l in
  send_msg msg.

Definition on_death (death_obj : string -> string) : M unit :=
  emit (logger debug "MultiChat.on_death called") ;;
  l <- get lang ;;
  let msg := death_obj l in
  send_msg msg.

End Slots.

(** ** Construction *)

(** What [MultiChatWS(logger, core, config)] leaves behind: a live object
    with its slots connected, a disabled object (no websocket, no timer, no
    slot connected: nothing ever calls it), or an exception. *)
Inductive construction : Type :=
| Enabled (self : MultiChatWS) (calls : list call)
| Disabled (calls : list call)
| Failed (e : exn) (calls : list call).

Section Construction.
Context `{PyRuntime}.

(** [config['multichat-url'].rstrip('/') + '/']: only a [str] has [rstrip]. *)
Definition normalize_url (v : json) : result string :=
  match v with
  | JStr s => Ok (rstrip "/" s ++ "/")
  | _ => Raise AttributeError
  end.

(** The language chosen by [__init__] and the warning it logs on the way. *)
Definition choose_lang (d : list (string * json)) : string * list call :=
  if dict_contains d "lang" then
    match dict_get d "lang" with
    | Some (JStr l) =>
        if existsb (String.eqb l) SUPPORTED_LANGUAGES then (l, [])
        else ("en", [logger warning ("Not supported language: " ++ l)])
    | Some v => ("en", [logger warning ("Not supported language: " ++ py_str v)])
    | None => ("en", [])
    end
  else ("en", []).

(** The fields read from [config], in the order [__init__] reads them.
    [config[...]] with a [str] key needs a dict. *)
Definition read_config (config : json)
  : result (string * json * json * json * json * json) :=
  try u <- getitem config "multichat-url" in
  try u <- normalize_url u in
  try k <- getitem config "multichat-key" in
  try sn <- match config with
            | JDict d =>
                if dict_contains d "server-name"
                then getitem config "server-name"
                else Ok (JStr "")
            | _ => Raise TypeError
            end in
  try dl <- getitem config "listen" in
  try dp <- getitem config "post" in
  try ip <- getitem config "ignore-prefix" in
  Ok (u, k, sn, dl, dp, ip).

(** [__init__]; [utils] tells whether [core.get_plugin('mcBasicLib')]
    returned a plugin. *)
Definition __init__ (utils : bool) (config : json) : construction :=
  match read_config config with
  | Raise e => Failed e []
  | Ok (u, k, sn, dl, dp, ip) =>
      let (l, warned) :=
        match config with
        | JDict d => choose_lang d
        | _ => ("en", [])
        end in
      if negb utils then
        Disabled (warned ++
          [logger error ("Failed to load plugin " ++ quoted "mcBasicLib"
                           ++ ", multiChat will be disabled.");
           logger error ("Please make sure that " ++ quoted "mcBasicLib"
                           ++ " has been added to plugins.")])
      else
        let self := {| config := config; url := u; key := k;
                       server_name := sn; do_listen := dl; do_post := dp;
                       ignore_prefix := ip; lang := l;
                       ws_valid := false;
                       retry_interval := RETRY_INTERVAL_MIN;
                       retry_timer := {| interval := 0; isActive := false |} |} in
        match on_retry_timer self with
        | Returned _ self' calls => Enabled self' (warned ++ calls)
        | Raised e _ calls => Failed e (warned ++ calls)
        end
  end.

(** [load] of the package: [file] is what opening and reading
    [multiChat/config.json] gives. *)
Definition load (utils : bool) (file : result string) : construction :=
  match file with
  | Raise e => Failed e []
  | Ok text =>
      match json_loads text with
      | Raise e => Failed e []
      | Ok config => __init__ utils config
      end
  end.

End Construction.

(** ** The event loop *)

(** The signals connected in [__init__]. *)
Inductive signal : Type :=
| connected
| textMessageReceived (message : string)
| disconnected
| timeout
| sig_input (pair : Player * string)
| sig_login (player : Player)
| sig_logout (player : Player)
| sig_advancement (advc : string -> string)
| sig_death (death_obj : string -> string).

Section EventLoop.
Context `{PyRuntime}.

Definition slot (e : signal) : M unit :=
  match e with
  | connected => on_connected
  | textMessageReceived message => on_recv message
  | disconnected => on_connection_broken
  | timeout => on_retry_timer
  | sig_input p => on_player_input p
  | sig_login player => on_player_login player
  | sig_logout player => on_player_logout player
  | sig_advancement advc => on_advancement advc
  | sig_death death_obj => on_death death_obj
  end.

(** The object after a signal was delivered; what a slot assigned before an
    exception left it stays assigned. *)
Definition deliver (e : signal) (self : MultiChatWS) : MultiChatWS :=
  state_of (slot e self).

Definition run (es : list signal) (self : MultiChatWS) : MultiChatWS :=
  fold_left (fun s e => deliver e s) es self.

(** The objects the event loop can see: the one [__init__] built, and the
    one after any signal. *)
Inductive reachable : MultiChatWS -> Prop :=
| reach_init utils config self calls :
    __init__ utils config = Enabled self calls -> reachable self
| reach_deliver e self :
    reachable self -> reachable (deliver e self).

(** The delays the retry timer was started with, one per [disconnected]
    signal, in order. *)
Fixpoint scheduled (es : list signal) (self : MultiChatWS) : list Z :=
  match es with
  | [] => []
  | e :: es' =>
      let self' := deliver e self in
      match e with
      | disconnected => interval (retry_timer self') :: scheduled es' self'
      | _ => scheduled es' self'
      end
  end.

End EventLoop.

(** ** A reference runtime

    A decoder and an encoder for the fragment of JSON the examples below
    use: [null], [true], [false], [NaN], [Infinity], integers, texts with
    the one-letter escapes, lists and dicts.  Fractional and exponent
    numbers, [\u] escapes and texts outside ASCII are outside the fragment:
    there the functions answer [Outside] / [None], and the instance
    [reference] completes them with an arbitrary answer.  The properties of
    the slots are proved for every runtime; this one only instantiates them
    at concrete frames. *)
Module Ref.

Inductive scan (A : Type) : Type :=
| Got (a : A) (rest : string)
| Bad
| Outside.
Arguments Got {A} a rest.
Arguments Bad {A}.
Arguments Outside {A}.

Definition is_ws (c : ascii) : bool :=
  match c with
  | " "%char | "009"%char | "010"%char | "013"%char => true
  | _ => false
  end.

Fixpoint skip_ws (s : string) : string :=
  match s with
  | String c t => if is_ws c then skip_ws t else s
  | EmptyString => s
  end.

Definition digit (c : ascii) : option Z :=
  let n := Z.of_nat (nat_of_ascii c) in
  if (48 <=? n) && (n <=? 57) then Some (n - 48) else None.

(** The digits at the head of [s], read after the value [acc]. *)
Fixpoint digits (acc : Z) (s : string) : Z * string :=
  match s with
  | String c t =>
      match digit c with
      | Some d => digits (10 * acc + d) t
      | None => (acc, s)
      end
  | EmptyString => (acc, s)
  end.

(** An integer: an optional minus sign (already read when [negative]), then
    a single zero or a non-zero digit and its following digits, with neither
    a fraction nor an exponent behind. *)
Definition scan_int (negative : bool) (s : string) : scan json :=
  match s with
  | String c t =>
      match digit c with
      | Some d =>
          let (n, rest) := if d =? 0 then (0, t) else digits d t in
          match rest with
          | String "."%char _ | String "e"%char _ | String "E"%char _ => Outside
          | _ => Got (JInt (if negative then - n else n)) rest
          end
      | None => Bad
      end
  | EmptyString => Bad
  end.

(** The text after an opening quote, up to the closing one. *)
Fixpoint scan_text (s : string) : scan string :=
  match s with
  | EmptyString => Bad
  | String c t =>
      if Ascii.eqb c dquote then Got "" t
      else if Ascii.eqb c "\"%char then
        match t with
        | String e t' =>
            let unescaped :=
              match e with
              | "\"%char => Some "\"%char
              | "/"%char => Some "/"%char
              | "b"%char => Some "008"%char
              | "f"%char => Some "012"%char
              | "n"%char => Some "010"%char
              | "r"%char => Some "013"%char
              | "t"%char => Some "009"%char
              | _ => if Ascii.eqb e dquote then Some dquote else None
              end in
            match unescaped with
            | Some a =>
                match scan_text t' with
                | Got body rest => Got (String a body) rest
                | other => other
                end
            | None => if Ascii.eqb e "u"%char then Outside else Bad
            end
        | EmptyString => Bad
        end
      else if (nat_of_ascii c <? 32)%nat then Bad
      else if (127 <? nat_of_ascii c)%nat then Outside
      else
        match scan_text t with
        | Got body rest => Got (String c body) rest
        | other => other
        end
  end.

(** [d[k] = v]: a key already present keeps its place. *)
Fixpoint dict_set (d : list (string * json)) (k : string) (v : json)
  : list (string * json) :=
  match d with
  | [] => [(k, v)]
  | (k', v') :: d' =>
      if String.eqb k' k then (k, v) :: d' else (k', v') :: dict_set d' k v
  end.

Definition expect (word : string) (v : json) (s : string) : scan json :=
  if String.prefix word s
  then Got v (substring (String.length word) (String.length s) s)
  else Bad.

(** One value at the head of [s]; [items] and [members] read what follows
    [[] and [{] up to the closing bracket. *)
Fixpoint scan_once (fuel : nat) (s : string) : scan json :=
  match fuel with
  | O => Bad
  | S fuel' =>
      match s with
      | EmptyString => Bad
      | String c t =>
          if Ascii.eqb c dquote then
            match scan_text t with
            | Got body rest => Got (JStr body) rest
            | Bad => Bad
            | Outside => Outside
            end
          else
            match c with
            | "{"%char =>
                match skip_ws t with
                | String "}"%char rest => Got (JDict []) rest
                | t' => members fuel' [] t'
                end
            | "["%char =>
                match skip_ws t with
                | String "]"%char rest => Got (JList []) rest
                | t' => items fuel' [] t'
                end
            | "n"%char => expect "null" JNone s
            | "t"%char => expect "true" (JBool true) s
            | "f"%char => expect "false" (JBool false) s
            | "N"%char => expect "NaN" (JFloat S754_nan) s
            | "I"%char => expect "Infinity" (JFloat (S754_infinity false)) s
            | "-"%char =>
                match t with
                | String "I"%char _ =>
                    expect "-Infinity" (JFloat (S754_infinity true)) s
                | _ => scan_int true t
                end
            | _ => scan_int false s
            end
      end
  end
with items (fuel : nat) (seen : list json) (s : string) : scan json :=
  match fuel with
  | O => Bad
  | S fuel' =>
      match scan_once fuel' s with
      | Got v rest =>
          match skip_ws rest with
          | String "]"%char rest' => Got (JList (seen ++ [v])) rest'
          | String ","%char rest' => items fuel' (seen ++ [v]) (skip_ws rest')
          | _ => Bad
          end
      | other => other
      end
  end
with members (fuel : nat) (seen : list (string * json)) (s : string) : scan json :=
  match fuel with
  | O => Bad
  | S fuel' =>
      match s with
      | String c t =>
          if Ascii.eqb c dquote then
            match scan_text t with
            | Got k rest =>
                match skip_ws rest with
                | String ":"%char rest' =>
                    match scan_once fuel' (skip_ws rest') with
                    | Got v rest'' =>
                        match skip_ws rest'' with
                        | String "}"%char after => Got (JDict (dict_set seen k v)) after
                        | String ","%char after =>
                            members fuel' (dict_set seen k v) (skip_ws after)
                        | _ => Bad
                        end
                    | other => other
                    end
                | _ => Bad
                end
            | Bad => Bad
            | Outside => Outside
            end
          else Bad
      | EmptyString => Bad
      end
  end.

(** [json.loads]: one value between optional white space, nothing after. *)
Definition loads (s : string) : option (result json) :=
  match scan_once (2 * String.length s + 2) (skip_ws s) with
  | Got v rest =>
      match skip_ws rest with
      | EmptyString => Some (Ok v)
      | _ => Some (Raise JSONDecodeError)
      end
  | Bad => Some (Raise JSONDecodeError)
  | Outside => None
  end.

(** [json.dumps] with its default settings: [", "] and [": "] between
    items, every character outside the printable ASCII range escaped. *)
Definition hex (n : nat) : ascii :=
  ascii_of_nat (if (n <? 10)%nat then 48 + n else 87 + n).

Definition escape_char (c : ascii) : option string :=
  let n := nat_of_ascii c in
  if Ascii.eqb c dquote then Some (String "\" (String dquote ""))
  else match c with
       | "\"%char => Some "\\"
       | "008"%char => Some "\b"
       | "012"%char => Some "\f"
       | "010"%char => Some "\n"
       | "013"%char => Some "\r"
       | "009"%char => Some "\t"
       | _ =>
           if (127 <? n)%nat then None
           else if (n <? 32)%nat || (n =? 127)%nat then
             Some ("\u00" ++ String (hex (n / 16)) (String (hex (n mod 16)) ""))
           else Some (String c "")
       end.

Fixpoint escape (s : string) : option string :=
  match s with
  | EmptyString => Some ""
  | String c t =>
      match escape_char c, escape t with
      | Some e, Some r => Some (e ++ r)
      | _, _ => None
      end
  end.

Fixpoint join (sep : string) (parts : list (option string)) : option string :=
  match parts with
  | [] => Some ""
  | [part] => part
  | part :: rest =>
      match part, join sep rest with
      | Some p, Some r => Some (p ++ sep ++ r)
      | _, _ => None
      end
  end.

Fixpoint dumps (v : json) : option string :=
  match v with
  | JNone => Some "null"
  | JBool true => Some "true"
  | JBool false => Some "false"
  | JInt z => Some (str_of_int z)
  | JFloat S754_nan => Some "NaN"
  | JFloat (S754_infinity false) => Some "Infinity"
  | JFloat (S754_infinity true) => Some "-Infinity"
  | JFloat _ => None
  | JStr s => option_map quoted (escape s)
  | JList l =>
      option_map (fun body => "[" ++ body ++ "]") (join ", " (map dumps l))
  | JDict d =>
      option_map (fun body => "{" ++ body ++ "}")
        (join ", "
           (map (fun kv =>
                   match escape (fst kv), dumps (snd kv) with
                   | Some k, Some x => Some (quoted k ++ ": " ++ x)
                   | _, _ => None
                   end) d))
  end.

(** [str(v)] of a value that is no [str]. *)
Definition str (v : json) : option string :=
  match v with
  | JNone => Some "None"
  | JBool true => Some "True"
  | JBool false => Some "False"
  | JInt z => Some (str_of_int z)
  | _ => None
  end.

End Ref.

Definition reference : PyRuntime :=
  {| json_loads s :=
       match Ref.loads s with Some r => r | None => Raise JSONDecodeError end;
     json_dumps v := match Ref.dumps v with Some s => s | None => "" end;
     str_of_value v := match Ref.str v with Some s => s | None => "" end |}.

(** ** Observations on the calls of a slot *)

(** The frames written to the websocket. *)
Fixpoint transport_writes (calls : list call) : list string :=
  match calls with
  | [] => []
  | sendTextMessage data :: rest => data :: transport_writes rest
  | _ :: rest => transport_writes rest
  end.

(** The texts told to all players, with their colour. *)
Fixpoint broadcasts (calls : list call) : list (string * option string) :=
  match calls with
  | [] => []
  | tell at_a msg color :: rest => (msg, color) :: broadcasts rest
  | _ :: rest => broadcasts rest
  end.

(** The warnings logged. *)
Fixpoint warnings (calls : list call) : list string :=
  match calls with
  | [] => []
  | logger warning msg :: rest => msg :: warnings rest
  | _ :: rest => warnings rest
  end.

(** A frame that [on_recv] takes for the acknowledgement of the
    registration. *)
Definition is_register_ack `{PyRuntime} (message : string) : bool :=
  match json_loads message with
  | Ok data =>
      match getitem data "action" with
      | Ok action => eq_str action "register-ack"
      | Raise _ => false
      end
  | Raise _ => false
  end.

(** A frame [on_recv] gets through without an exception: a dict with an
    ['action'], and with a source and a content when it is to be posted. *)
Definition accepted `{PyRuntime} (dp : json) (message : string) : bool :=
  match json_loads message with
  | Ok data =>
      match getitem data "action" with
      | Ok action =>
          if eq_str action "forwarding-message" && truthy dp then
            match getitem data "source-client-name", getitem data "content" with
            | Ok _, Ok _ => true
            | _, _ => false
            end
          else true
      | Raise _ => false
      end
  | Raise _ => false
  end.

(** A signal other than the loss of the connection and the acknowledgement
    of a registration. *)
Definition quiet `{PyRuntime} (e : signal) : bool :=
  match e with
  | disconnected => false
  | textMessageReceived message => negb (is_register_ack message)
  | _ => true
  end.

Definition is_disconnected (e : signal) : bool :=
  match e with
  | disconnected => true
  | _ => false
  end.

(** The fields [__init__] requires of the configuration. *)
Definition required_fields : list string :=
  ["multichat-url"; "multichat-key"; "listen"; "post"; "ignore-prefix"].

(** The calls made while the signals [es] are delivered in turn. *)
Fixpoint trace `{PyRuntime} (es : list signal) (self : MultiChatWS) : list call :=
  match es with
  | [] => []
  | e :: es' => calls_of (slot e self) ++ trace es' (deliver e self)
  end.

(** A signal that is no acknowledgement of a registration. *)
Definition not_ack `{PyRuntime} (e : signal) : bool :=
  match e with
  | textMessageReceived message => negb (is_register_ack message)
  | _ => true
  end.

(** A dict that lacks one of the required fields. *)
Definition lacks_required (d : list (string * json)) : bool :=
  existsb (fun k => negb (dict_contains d k)) required_fields.

(** What the loop over [ignore_prefix] decides when every prefix is a text. *)
Definition ignored (prefixes : list string) (text : string) : bool :=
  existsb (fun p => String.prefix p text) prefixes.

(** What the event loop maintains: the interval stays in its range, and is
    at its minimum while registered. *)
Definition invariant (self : MultiChatWS) : Prop :=
  RETRY_INTERVAL_MIN <= retry_interval self <= RETRY_INTERVAL_MAX
  /\ (ws_valid self = true -> retry_interval self = RETRY_INTERVAL_MIN).

(** ** Examples: a configuration, the object built from it, some frames *)

Definition example_config : json :=
  JDict [("multichat-url", JStr "ws://hub.example/relay//");
         ("multichat-key", JStr "secret");
         ("listen", JBool true);
         ("post", JBool true);
         ("ignore-prefix", JList [JStr "!"])].

Definition fresh : MultiChatWS :=
  {| config := example_config;
     url := "ws://hub.example/relay/";
     key := JStr "secret";
     server_name := JStr "";
     do_listen := JBool true;
     do_post := JBool true;
     ignore_prefix := JList [JStr "!"];
     lang := "en";
     ws_valid := false;
     retry_interval := 5000;
     retry_timer := {| interval := 0; isActive := false |} |}.

Definition registered : MultiChatWS := set_ws_valid true fresh.

Definition Bob : Player := {| name := "Bob"; is_console := false |}.
Definition console : Player := {| name := "Server"; is_console := true |}.

Definition ack_frame : string :=
  "{" ++ quoted "action" ++ ": " ++ quoted "register-ack" ++ "}".

Definition forwarding_frame : string :=
  "{" ++ quoted "action" ++ ": " ++ quoted "forwarding-message" ++ ", "
      ++ quoted "source-client-name" ++ ": " ++ quoted "Hub1" ++ ", "
      ++ quoted "content" ++ ": " ++ quoted "hi" ++ "}".

(** ** Further examples *)

(** A configuration asking for a language that is not supported. *)
Definition french_config : json :=
  JDict [("multichat-url", JStr "ws://hub.example");
         ("multichat-key", JStr "secret");
         ("server-name", JStr "Survival");
         ("listen", JBool true);
         ("post", JBool false);
         ("ignore-prefix", JList []);
         ("lang", JStr "fr")].

Definition french : MultiChatWS :=
  {| config := french_config;
     url := "ws://hub.example/";
     key := JStr "secret";
     server_name := JStr "Survival";
     do_listen := JBool true;
     do_post := JBool false;
     ignore_prefix := JList [];
     lang := "en";
     ws_valid := false;
     retry_interval := 5000;
     retry_timer := {| interval := 0; isActive := false |} |}.

(** The registered example with other prefixes. *)
Definition with_prefixes (ip : json) : MultiChatWS :=
  {| config := example_config;
     url := "ws://hub.example/relay/";
     key := JStr "secret";
     server_name := JStr "";
     do_listen := JBool true;
     do_post := JBool true;
     ignore_prefix := ip;
     lang := "en";
     ws_valid := true;
     retry_interval := 5000;
     retry_timer := {| interval := 0; isActive := false |} |}.

Definition ping_frame : string :=
  "{" ++ quoted "action" ++ ": " ++ quoted "ping" ++ "}".

(** ** Further observations *)

(** The urls the websocket was opened at. *)
Fixpoint openings (calls : list call) : list string :=
  match calls with
  | [] => []
  | ws_open u :: rest => u :: openings rest
  | _ :: rest => openings rest
  end.

(** The part of the object that [__init__] takes from the configuration. *)
Definition settings (self : MultiChatWS)
  : json * string * json * json * json * json * json * string :=
  (config self, url self, key self, server_name self, do_listen self,
   do_post self, ignore_prefix self, lang self).

(** A text whose last character is [c]. *)
Fixpoint ends_with (c : ascii) (s : string) : bool :=
  match s with
  | EmptyString => false
  | String a EmptyString => Ascii.eqb a c
  | String _ t => ends_with c t
  end.

(** [c * n]. *)
Fixpoint replicate (n : nat) (c : ascii) : string :=
  match n with
  | O => EmptyString
  | S n' => String c (replicate n' c)
  end.

(** The object [on_connected] serialises. *)
Definition register_obj (client_name : string) (k : json) : json :=
  JDict [("action", JStr "register");
         ("client-name", JStr client_name);
         ("secret-key", k)].

(** The object [send_msg] serialises. *)
Definition client_message_obj (message : string) : json :=
  JDict [("action", JStr "client-message"); ("content", JStr message)].

Definition is_connected (e : signal) : bool :=
  match e with
  | connected => true
  | _ => false
  end.

(** [None], a [bool], an [int] or a [float]: what a [for] loop cannot
    iterate. *)
Definition is_scalar (v : json) : bool :=
  match v with
  | JNone | JBool _ | JInt _ | JFloat _ => true
  | _ => false
  end.

(** A text of ASCII characters. *)
Fixpoint is_ascii_text (s : string) : bool :=
  match s with
  | EmptyString => true
  | String (Ascii _ _ _ _ _ _ _ b7) t => negb b7 && is_ascii_text t
  end.

(** The one-character texts of the characters of [s]. *)
Fixpoint singletons (s : string) : list string :=
  match s with
  | EmptyString => []
  | String a t => String a EmptyString :: singletons t
  end.

(** The retry timer while it runs has an interval within the bounds. *)
Definition timer_in_range (self : MultiChatWS) : Prop :=
  isActive (retry_timer self) = true ->
  RETRY_INTERVAL_MIN <= interval (retry_timer self) <= RETRY_INTERVAL_MAX.

(** ** Preservation of a property of the object by a computation *)

Definition preserves {A} (P : MultiChatWS -> Prop) (m : M A) : Prop :=
  forall self, P self -> P (state_of (m self)).

Section Preservation.
Variable P : MultiChatWS -> Prop.

Lemma preserves_ret {A} (a : A) : preserves P (ret a).
Proof. intros self HP; exact HP. Qed.

Lemma preserves_raise {A} (e : exn) : preserves P (@raise A e).
Proof. intros self HP; exact HP. Qed.

Lemma preserves_emit (c : call) : preserves P (emit c).
Proof. intros self HP; exact HP. Qed.

Lemma preserves_get {A} (f : MultiChatWS -> A) : preserves P (get f).
Proof. intros self HP; exact HP. Qed.

Lemma preserves_lift {A} (r : result A) : preserves P (lift r).
Proof. destruct r; intros self HP; exact HP. Qed.

Lemma preserves_modify (f : MultiChatWS -> MultiChatWS) :
  (forall self, P self -> P (f self)) -> preserves P (modify f).
Proof. intros Hf self HP; apply Hf, HP. Qed.

Lemma preserves_bind {A B} (m : M A) (k : A -> M B) :
  preserves P m -> (forall a, preserves P (k a)) -> preserves P (bind m k).
Proof.
  intros Hm Hk self HP. unfold bind.
  specialize (Hm self HP).
  destruct (m self) as [a self1 c1 | e self1 c1]; simpl in Hm.
  - specialize (Hk a self1 Hm).
    destruct (k a self1); exact Hk.
  - exact Hm.
Qed.

End Preservation.

(** Splits a computation along its sequencing and its branches, leaving the
    assignments to justify. *)
Ltac preserve :=
  repeat first
    [ apply preserves_ret
    | apply preserves_raise
    | apply preserves_emit
    | apply preserves_get
    | apply preserves_lift
    | apply preserves_bind; [ | intros ? ]
    | match goal with
      | |- preserves _ (if ?b then _ else _) => destruct b
      | |- preserves _ (match ?x with _ => _ end) => destruct x
      | |- preserves _ (let (_, _) := ?x in _) => destruct x
      end
    | apply preserves_modify; intros ? ? ].

Section QuietSlots.
Context `{PyRuntime}.

(** A property of the object that does not depend on the retry timer is
    kept by every slot but [on_recv] and [on_connection_broken]: they assign
    nothing else. *)
Variable P : MultiChatWS -> Prop.
Hypothesis P_timer : forall t self, P self -> P (set_retry_timer t self).

Lemma send_msg_keeps message : preserves P (send_msg message).
Proof. unfold send_msg. preserve. Qed.

Lemma on_retry_timer_keeps : preserves P on_retry_timer.
Proof. unfold on_retry_timer, on_timer. preserve. now apply P_timer. Qed.

Lemma on_connected_keeps : preserves P on_connected.
Proof. unfold on_connected. preserve. Qed.

Lemma on_player_input_keeps pair : preserves P (on_player_input pair).
Proof. unfold on_player_input. preserve. now apply P_timer. Qed.

Lemma on_player_login_keeps player : preserves P (on_player_login player).
Proof. unfold on_player_login. preserve. Qed.

Lemma on_player_logout_keeps player : preserves P (on_player_logout player).
Proof. unfold on_player_logout. preserve. Qed.

Lemma on_advancement_keeps advc : preserves P (on_advancement advc).
Proof. unfold on_advancement. preserve. Qed.

Lemma on_death_keeps death_obj : preserves P (on_death death_obj).
Proof. unfold on_death. preserve. Qed.

End QuietSlots.

(** ** Sending *)

Section Sending.
Context `{PyRuntime}.

(** C2: [send_msg] with the connection registered ([ws_valid]) writes
    exactly one frame to the websocket, the [client-message] carrying the
    payload; otherwise it writes nothing and logs one warning.  Either way
    the object is left as it was: the message is neither kept nor retried. *)
Theorem send_msg_writes_once_or_drops (message : string) (self : MultiChatWS) :
  let frame := json_dumps (JDict [("action", JStr "client-message");
                                  ("content", JStr message)]) in
  send_msg message self =
    Returned tt self
      (if ws_valid self
       then [logger debug ("WebSocket sending: " ++ frame); sendTextMessage frame]
       else [logger warning "Tried to write websocket when not available"])
  /\ transport_writes (calls_of (send_msg message self)) =
       (if ws_valid self then [frame] else [])
  /\ warnings (calls_of (send_msg message self)) =
       (if ws_valid self then []
        else ["Tried to write websocket when not available"]).
Proof.
  intros frame. unfold send_msg, bind, get, emit. subst frame.
  destruct (ws_valid self); simpl; repeat split; reflexivity.
Qed.

End Sending.

(** ** Losing the connection *)

Section Backoff.
Context `{PyRuntime}.

Lemma on_connection_broken_eq (self : MultiChatWS) :
  on_connection_broken self =
    Returned tt
      (set_retry_interval (Z.min RETRY_INTERVAL_MAX (retry_interval self * 2))
         (set_retry_timer {| interval := retry_interval self; isActive := true |}
            (set_ws_valid false self)))
      [logger info ("Connection broken, retry after "
                      ++ str_of_int (retry_interval self) ++ "ms");
       tell at_a ("multichat connection broken, retry after "
                    ++ str_of_int (retry_interval self) ++ "ms") None].
Proof. reflexivity. Qed.

Lemma deliver_disconnected (self : MultiChatWS) :
  retry_interval (deliver disconnected self)
    = Z.min RETRY_INTERVAL_MAX (retry_interval self * 2)
  /\ retry_timer (deliver disconnected self)
    = {| interval := retry_interval self; isActive := true |}
  /\ ws_valid (deliver disconnected self) = false.
Proof. repeat split. Qed.

(** C3: every [on_connection_broken] tells all players the current retry
    interval, starts the retry timer with that same interval, and only then
    doubles the interval under the cap.  So three losses in a row, starting
    from the minimum 5000, start the timer with 5000, 10000 and 20000, each
    announced by its notice. *)
Theorem on_connection_broken_reports_then_advances :
  (forall self,
     on_connection_broken self =
       Returned tt
         (set_retry_interval (Z.min RETRY_INTERVAL_MAX (retry_interval self * 2))
            (set_retry_timer {| interval := retry_interval self; isActive := true |}
               (set_ws_valid false self)))
         [logger info ("Connection broken, retry after "
                         ++ str_of_int (retry_interval self) ++ "ms");
          tell at_a ("multichat connection broken, retry after "
                       ++ str_of_int (retry_interval self) ++ "ms") None])
  /\ (forall self,
        retry_interval self = 5000 ->
        scheduled [disconnected; disconnected; disconnected] self
          = [5000; 10000; 20000]
        /\ broadcasts (trace [disconnected; disconnected; disconnected] self)
          = [("multichat connection broken, retry after 5000ms", None);
             ("multichat connection broken, retry after 10000ms", None);
             ("multichat connection broken, retry after 20000ms", None)]).
Proof.
  split.
  - exact on_connection_broken_eq.
  - intros self Hmin. unfold scheduled, trace, deliver, slot.
    rewrite !on_connection_broken_eq. simpl. rewrite Hmin. split; reflexivity.
Qed.

End Backoff.

(** ** The reconnect command *)

Section Command.
Context `{PyRuntime}.

Lemma on_retry_timer_eq (self : MultiChatWS) :
  on_retry_timer self =
    Returned tt (set_retry_timer (stop (retry_timer self)) self)
      [logger info "Connecting to multichat server";
       tell at_a "multichat: connecting to server" None;
       ws_open (url self)].
Proof. reflexivity. Qed.

Lemma on_player_input_command (player : Player) (self : MultiChatWS) :
  on_player_input (player, "!multichat connect") self =
    if ws_valid self then
      Returned tt self
        [logger debug "MultiChat.on_player_input called";
         tell (to_player player) "multichat is already connected to server" None]
    else
      Returned tt (state_of (on_retry_timer self))
        (logger debug "MultiChat.on_player_input called"
           :: calls_of (on_retry_timer self)).
Proof.
  unfold on_player_input, bind, get, emit. simpl.
  destruct (ws_valid self); reflexivity.
Qed.

(** C8: a chat input equal to ["!multichat connect"] is never forwarded.
    With the connection registered the actor is told that multichat is
    already connected and nothing else happens; otherwise the slot does
    what [on_retry_timer] does, opening the websocket at once. *)
Theorem connect_command_is_handled_locally (player : Player) (self : MultiChatWS) :
  let o := on_player_input (player, "!multichat connect") self in
  transport_writes (calls_of o) = []
  /\ o = (if ws_valid self then
            Returned tt self
              [logger debug "MultiChat.on_player_input called";
               tell (to_player player)
                 "multichat is already connected to server" None]
          else
            Returned tt (set_retry_timer (stop (retry_timer self)) self)
              [logger debug "MultiChat.on_player_input called";
               logger info "Connecting to multichat server";
               tell at_a "multichat: connecting to server" None;
               ws_open (url self)])
  /\ (if ws_valid self then True
      else state_of o = state_of (on_retry_timer self)
           /\ calls_of o = logger debug "MultiChat.on_player_input called"
                             :: calls_of (on_retry_timer self)).
Proof.
  intros o. subst o. rewrite on_player_input_command.
  destruct (ws_valid self); simpl; repeat split; reflexivity.
Qed.

(** C10: the command is recognised before the actor is looked at, so the
    server console typing ["!multichat connect"] gets the notice or the
    reconnection like any player; a console input that is not the command
    is only kept from being forwarded. *)
Theorem console_can_issue_connect_command
    (player : Player) (text : string) (self : MultiChatWS) :
  is_console player = true ->
  on_player_input (player, "!multichat connect") self
    = (if ws_valid self then
         Returned tt self
           [logger debug "MultiChat.on_player_input called";
            tell (to_player player)
              "multichat is already connected to server" None]
       else
         Returned tt (state_of (on_retry_timer self))
           (logger debug "MultiChat.on_player_input called"
              :: calls_of (on_retry_timer self)))
  /\ (text <> "!multichat connect" ->
      on_player_input (player, text) self
        = Returned tt self [logger debug "MultiChat.on_player_input called"]).
Proof.
  intros Hconsole. split.
  - apply on_player_input_command.
  - intros Hother. apply String.eqb_neq in Hother.
    unfold on_player_input, bind, get, emit. simpl. rewrite Hother.
    destruct (truthy (do_listen self)); simpl; [ rewrite Hconsole | ];
      reflexivity.
Qed.

End Command.

(** ** Receiving *)

Section Receiving.
Context `{PyRuntime}.

Lemma eq_str_ack_not_forwarding (action : json) :
  eq_str action "register-ack" = true ->
  eq_str action "forwarding-message" = false.
Proof.
  destruct action; simpl; try discriminate.
  intros Heq. apply String.eqb_eq in Heq. subst. reflexivity.
Qed.

(** What [on_recv] does with an acknowledgement. *)
Lemma on_recv_ack (message : string) (self : MultiChatWS) :
  is_register_ack message = true ->
  on_recv message self =
    Returned tt (set_retry_interval RETRY_INTERVAL_MIN (set_ws_valid true self))
      [logger debug ("WebSocket received: " ++ message);
       logger info "Successfully registered.";
       tell at_a "multichat: server connected" None].
Proof.
  unfold is_register_ack, on_recv, bind, emit, lift, get, modify, ret, raise.
  destruct (json_loads message) as [data | e]; [ | discriminate ].
  destruct (getitem data "action") as [action | e]; [ | discriminate ].
  intros Hack. simpl. rewrite Hack.
  rewrite (eq_str_ack_not_forwarding _ Hack). reflexivity.
Qed.

(** What it does with any other frame: the object stays as it was, and the
    slot returns exactly when the frame is [accepted]. *)
Lemma on_recv_other (message : string) (self : MultiChatWS) :
  is_register_ack message = false ->
  match on_recv message self with
  | Returned _ self' calls =>
      accepted (do_post self) message = true /\ self' = self
  | Raised e self' calls =>
      accepted (do_post self) message = false /\ self' = self
      /\ calls = [logger debug ("WebSocket received: " ++ message)]
      /\ (json_loads message = Raise e \/ e = TypeError
          \/ exists k, e = KeyError k)
  end.
Proof.
  unfold is_register_ack, accepted, on_recv, post, bind, emit, lift, get,
    modify, ret, raise.
  destruct (json_loads message) as [data | e]; simpl.
  2: { intros _. repeat split; auto. }
  destruct data; simpl;
    try (intros _; repeat split; auto; fail).
  destruct (dict_get d "action") as [action | ] eqn:Haction; simpl.
  2: { intros _. repeat split; eauto. }
  intros Hack. rewrite Hack. simpl.
  destruct (eq_str action "forwarding-message" && truthy (do_post self));
    simpl; [ | split; reflexivity ].
  destruct (dict_get d "source-client-name"); simpl.
  2: { repeat split; eauto. }
  destruct (dict_get d "content"); simpl.
  2: { repeat split; eauto. }
  split; reflexivity.
Qed.

(** The object after [on_recv]. *)
Lemma on_recv_state (message : string) (self : MultiChatWS) :
  state_of (on_recv message self) =
    if is_register_ack message
    then set_retry_interval RETRY_INTERVAL_MIN (set_ws_valid true self)
    else self.
Proof.
  destruct (is_register_ack message) eqn:Hack.
  - rewrite (on_recv_ack _ _ Hack). reflexivity.
  - pose proof (on_recv_other message self Hack) as Hother.
    destruct (on_recv message self); simpl; tauto.
Qed.

Lemma accepted_ack (dp : json) (message : string) :
  is_register_ack message = true -> accepted dp message = true.
Proof.
  unfold is_register_ack, accepted.
  destruct (json_loads message) as [data | e]; [ | discriminate ].
  destruct (getitem data "action") as [action | e]; [ | discriminate ].
  intros Hack. rewrite (eq_str_ack_not_forwarding _ Hack). reflexivity.
Qed.

(** C1, as the code has it: [on_recv] is not total.  It returns exactly on
    the frames that decode to a dict with an ['action'] member (and, for a
    forwarding message to be posted, with a source and a content); on every
    other text the exception of [json.loads], a [TypeError] or a [KeyError]
    leaves the slot.  A frame that raises has only been logged: the object,
    and with it the state of the connection, is as before. *)
Theorem on_recv_returns_iff_accepted (message : string) (self : MultiChatWS) :
  match on_recv message self with
  | Returned _ _ _ => accepted (do_post self) message = true
  | Raised e self' calls =>
      accepted (do_post self) message = false
      /\ self' = self
      /\ calls = [logger debug ("WebSocket received: " ++ message)]
      /\ (json_loads message = Raise e \/ e = TypeError
          \/ exists k, e = KeyError k)
  end.
Proof.
  destruct (is_register_ack message) eqn:Hack.
  - rewrite (on_recv_ack _ _ Hack). now apply accepted_ack.
  - pose proof (on_recv_other message self Hack) as Hother.
    destruct (on_recv message self); tauto.
Qed.

(** C7: a frame that decodes to a forwarding message with source [source]
    and content [content] makes [on_recv] tell all players ['@a'] the text
    ["[" ++ source ++ "]" ++ content],
    once, when [do_post] is set; when it is not set nothing is told.  The
    object is left as it was. *)
Theorem forwarding_message_is_posted_once
    (message : string) (data : json) (source content : string) (self : MultiChatWS) :
  json_loads message = Ok data ->
  getitem data "action" = Ok (JStr "forwarding-message") ->
  getitem data "source-client-name" = Ok (JStr source) ->
  getitem data "content" = Ok (JStr content) ->
  on_recv message self =
    Returned tt self
      (logger debug ("WebSocket received: " ++ message)
         :: if truthy (do_post self)
            then [tell at_a ("[" ++ source ++ "]" ++ content) (Some "#777777")]
            else [])
  /\ broadcasts (calls_of (on_recv message self)) =
       (if truthy (do_post self)
        then [("[" ++ source ++ "]" ++ content, Some "#777777")]
        else []).
Proof.
  intros Hloads Haction Hsource Hcontent.
  unfold on_recv, post, bind, emit, lift, get, modify, ret, raise.
  rewrite Hloads. simpl. rewrite Haction. simpl.
  destruct (truthy (do_post self)); simpl.
  - rewrite Hsource. simpl. rewrite Hcontent. simpl. split; reflexivity.
  - split; reflexivity.
Qed.

End Receiving.

(** ** The retry interval along the event loop *)

Section Loop.
Context `{PyRuntime}.

Lemma deliver_retry_interval (e : signal) (self : MultiChatWS) :
  retry_interval (deliver e self) =
    match e with
    | disconnected => Z.min RETRY_INTERVAL_MAX (retry_interval self * 2)
    | textMessageReceived message =>
        if is_register_ack message then RETRY_INTERVAL_MIN
        else retry_interval self
    | _ => retry_interval self
    end.
Proof.
  pose (P := fun s : MultiChatWS => retry_interval s = retry_interval self).
  assert (P_timer : forall t s, P s -> P (set_retry_timer t s))
    by (intros t s Hs; exact Hs).
  destruct e; unfold deliver, slot.
  - now apply (on_connected_keeps P).
  - rewrite on_recv_state. now destruct (is_register_ack message).
  - reflexivity.
  - now apply (on_retry_timer_keeps P P_timer).
  - now apply (on_player_input_keeps P P_timer).
  - now apply (on_player_login_keeps P).
  - now apply (on_player_logout_keeps P).
  - now apply (on_advancement_keeps P).
  - now apply (on_death_keeps P).
Qed.

Lemma deliver_ws_valid (e : signal) (self : MultiChatWS) :
  ws_valid (deliver e self) =
    match e with
    | disconnected => false
    | textMessageReceived message =>
        if is_register_ack message then true else ws_valid self
    | _ => ws_valid self
    end.
Proof.
  pose (P := fun s : MultiChatWS => ws_valid s = ws_valid self).
  assert (P_timer : forall t s, P s -> P (set_retry_timer t s))
    by (intros t s Hs; exact Hs).
  destruct e; unfold deliver, slot.
  - now apply (on_connected_keeps P).
  - rewrite on_recv_state. now destruct (is_register_ack message).
  - reflexivity.
  - now apply (on_retry_timer_keeps P P_timer).
  - now apply (on_player_input_keeps P P_timer).
  - now apply (on_player_login_keeps P).
  - now apply (on_player_logout_keeps P).
  - now apply (on_advancement_keeps P).
  - now apply (on_death_keeps P).
Qed.

(** The object [__init__] hands to the event loop. *)
Lemma init_enabled utils config self calls :
  __init__ utils config = Enabled self calls ->
  retry_interval self = RETRY_INTERVAL_MIN /\ ws_valid self = false.
Proof.
  unfold __init__.
  destruct (read_config config) as [[[[[[u k] sn] dl] dp] ip] | e];
    [ | discriminate ].
  destruct (match config with JDict d => choose_lang d | _ => ("en", []) end)
    as [l warned].
  destruct utils; simpl; [ | discriminate ].
  intros Heq. inversion Heq; subst. split; reflexivity.
Qed.

Lemma deliver_invariant (e : signal) (self : MultiChatWS) :
  invariant self -> invariant (deliver e self).
Proof.
  unfold invariant. intros [Hrange Hreg].
  rewrite deliver_retry_interval, deliver_ws_valid.
  unfold RETRY_INTERVAL_MIN, RETRY_INTERVAL_MAX in *.
  destruct e; try (split; [ lia | assumption ]).
  - destruct (is_register_ack message); split; auto; lia.
  - split; [ lia | discriminate ].
Qed.

Lemma reachable_invariant (self : MultiChatWS) :
  reachable self -> invariant self.
Proof.
  induction 1 as [utils config self calls Hinit | e self Hreach IH].
  - destruct (init_enabled _ _ _ _ Hinit) as [Hmin Hvalid].
    unfold invariant. rewrite Hmin, Hvalid.
    unfold RETRY_INTERVAL_MIN, RETRY_INTERVAL_MAX.
    split; [ lia | discriminate ].
  - now apply deliver_invariant.
Qed.

Lemma scheduled_app (es1 es2 : list signal) (self : MultiChatWS) :
  scheduled (es1 ++ es2) self
    = (scheduled es1 self ++ scheduled es2 (run es1 self))%list.
Proof.
  revert self. induction es1 as [ | e es1 IH]; intros self; simpl.
  - reflexivity.
  - fold (run es1 (deliver e self)).
    rewrite IH. destruct e; reflexivity.
Qed.

(** Without an acknowledgement in between, the delays grow and stay under
    the cap. *)
Lemma scheduled_from (es : list signal) (self : MultiChatWS) :
  0 <= retry_interval self <= RETRY_INTERVAL_MAX ->
  forallb not_ack es = true ->
  Forall (fun d => retry_interval self <= d <= RETRY_INTERVAL_MAX)
    (scheduled es self)
  /\ StronglySorted Z.le (scheduled es self).
Proof.
  revert self. induction es as [ | e es IH]; intros self Hrange Hquiet.
  - split; constructor.
  - simpl in Hquiet. apply andb_true_iff in Hquiet as [He Hes].
    assert (Hnext : retry_interval self <= retry_interval (deliver e self)
                    <= RETRY_INTERVAL_MAX).
    { rewrite deliver_retry_interval.
      unfold RETRY_INTERVAL_MAX in *.
      destruct e; try lia.
      simpl in He. apply negb_true_iff in He. rewrite He. lia. }
    destruct (IH (deliver e self)) as [Hall Hsorted]; [ lia | exact Hes | ].
    assert (Hall' : Forall (fun d => retry_interval self <= d <= RETRY_INTERVAL_MAX)
                      (scheduled es (deliver e self))).
    { eapply Forall_impl; [ | exact Hall ]. simpl. intros d Hd. lia. }
    simpl. destruct e; try (split; assumption).
    split.
    + constructor; [ simpl; lia | exact Hall' ].
    + constructor; [ exact Hsorted | ].
      eapply Forall_impl; [ | exact Hall' ]. simpl. intros d Hd. lia.
Qed.

(** C4: in every object the event loop can reach the retry interval lies
    between 5000 and 3600000; and over any run of signals without an
    acknowledgement of a registration, the delays the retry timer is
    started with never decrease and never exceed the maximum. *)
Theorem retry_interval_bounded_and_monotone :
  (forall self,
     reachable self ->
     5000 <= retry_interval self <= 3600000)
  /\ (forall es self,
        reachable self ->
        forallb not_ack es = true ->
        StronglySorted Z.le (scheduled es self)
        /\ Forall (fun d => d <= RETRY_INTERVAL_MAX) (scheduled es self)).
Proof.
  split.
  - intros self Hreach. apply reachable_invariant in Hreach as [Hrange _].
    exact Hrange.
  - intros es self Hreach Hquiet.
    apply reachable_invariant in Hreach as [Hrange _].
    destruct (scheduled_from es self) as [Hall Hsorted];
      [ unfold RETRY_INTERVAL_MIN in Hrange; lia | exact Hquiet | ].
    split; [ exact Hsorted | ].
    eapply Forall_impl; [ | exact Hall ]. simpl. intros d Hd. lia.
Qed.

(** No loss of the connection, no change of an interval at its minimum. *)
Lemma run_keeps_minimum (es : list signal) (self : MultiChatWS) :
  retry_interval self = RETRY_INTERVAL_MIN ->
  forallb (fun e => negb (is_disconnected e)) es = true ->
  retry_interval (run es self) = RETRY_INTERVAL_MIN
  /\ scheduled es self = [].
Proof.
  revert self. induction es as [ | e es IH]; intros self Hmin Hes.
  - split; [ exact Hmin | reflexivity ].
  - simpl in Hes. apply andb_true_iff in Hes as [He Hes].
    assert (Hnext : retry_interval (deliver e self) = RETRY_INTERVAL_MIN).
    { rewrite deliver_retry_interval.
      destruct e; try assumption; try discriminate.
      now destruct (is_register_ack message). }
    destruct (IH (deliver e self) Hnext Hes) as [Hrun Hsched].
    simpl. fold (run es (deliver e self)).
    destruct e; try (split; assumption); discriminate.
Qed.

(** C5, as the code has it: every frame that decodes to the acknowledgement
    sets [ws_valid], resets the retry interval to its minimum and tells all
    players that the server is connected.  A further acknowledgement while
    registered leaves the object as it is, and is announced like the first.
    After an acknowledgement, whatever signals follow, the next loss of the
    connection starts the retry timer with the minimum. *)
Theorem register_ack_registers_on_every_frame
    (message : string) (self : MultiChatWS) :
  is_register_ack message = true ->
  on_recv message self =
    Returned tt (set_retry_interval RETRY_INTERVAL_MIN (set_ws_valid true self))
      [logger debug ("WebSocket received: " ++ message);
       logger info "Successfully registered.";
       tell at_a "multichat: server connected" None]
  /\ (reachable self -> ws_valid self = true ->
      state_of (on_recv message self) = self)
  /\ (forall es,
        forallb (fun e => negb (is_disconnected e)) es = true ->
        scheduled (es ++ [disconnected])
          (deliver (textMessageReceived message) self)
          = [RETRY_INTERVAL_MIN]).
Proof.
  intros Hack. split; [ | split ].
  - now apply on_recv_ack.
  - intros Hreach Hvalid.
    apply reachable_invariant in Hreach as [_ Hreg].
    specialize (Hreg Hvalid).
    rewrite on_recv_state, Hack.
    destruct self; simpl in *. subst. reflexivity.
  - intros es Hes.
    set (self' := deliver (textMessageReceived message) self).
    assert (Hmin : retry_interval self' = RETRY_INTERVAL_MIN).
    { unfold self'. rewrite deliver_retry_interval, Hack. reflexivity. }
    destruct (run_keeps_minimum es self' Hmin Hes) as [Hrun Hsched].
    rewrite scheduled_app, Hsched. simpl.
    rewrite Hrun. reflexivity.
Qed.

End Loop.

(** ** Forwarding chat *)

Section Forwarding.
Context `{PyRuntime}.

Lemma startswith_any_texts (text : string) (prefixes : list string) :
  startswith_any text (map JStr prefixes) = Ok (ignored prefixes text).
Proof.
  induction prefixes as [ | p prefixes IH]; simpl.
  - reflexivity.
  - destruct (String.prefix p text); [ reflexivity | exact IH ].
Qed.

Lemma ignored_false (prefixes : list string) (text : string) :
  ignored prefixes text = false <->
  forall p, In p prefixes -> String.prefix p text = false.
Proof.
  unfold ignored. induction prefixes as [ | q prefixes IH]; simpl.
  - split; [ intros _ p [] | reflexivity ].
  - rewrite orb_false_iff, IH. split.
    + intros [Hq Hrest] p [Hp | Hp]; [ subst; exact Hq | now apply Hrest ].
    + intros Hall. split; [ apply Hall; now left | ].
      intros p Hp. apply Hall. now right.
Qed.

Lemma on_player_input_chat
    (player : Player) (text : string) (prefixes : list string)
    (self : MultiChatWS) :
  text <> "!multichat connect" ->
  ignore_prefix self = JList (map JStr prefixes) ->
  on_player_input (player, text) self =
    if truthy (do_listen self) && negb (is_console player)
       && negb (ignored prefixes text)
    then
      Returned tt self
        (logger debug "MultiChat.on_player_input called"
           :: calls_of (send_msg ("<" ++ name player ++ "> " ++ text) self))
    else Returned tt self [logger debug "MultiChat.on_player_input called"].
Proof.
  intros Hother Hprefixes. apply String.eqb_neq in Hother.
  unfold on_player_input, bind, get, emit, lift, ret. simpl. rewrite Hother.
  destruct (truthy (do_listen self)); simpl; [ | reflexivity ].
  destruct (is_console player); simpl; [ reflexivity | ].
  rewrite Hprefixes. simpl. rewrite startswith_any_texts.
  destruct (ignored prefixes text); simpl; [ reflexivity | ].
  unfold send_msg, bind, get, emit.
  destruct (ws_valid self); reflexivity.
Qed.

(** C6, as the code has it: a chat input that is not the reconnect command,
    in an object whose [ignore_prefix] is a list of texts, reaches the hub
    if and only if [do_listen] is set, the actor is not the console, the
    text starts with none of the prefixes, and the connection is registered.
    The frame written is then the [client-message] whose content is
    ["<name> text"].  When the first three hold and the connection is not
    registered, the text is handed to [send_msg] and dropped there with its
    warning.  The slot returns and leaves the object as it was. *)
Theorem chat_reaches_the_hub_iff_listened_and_registered
    (player : Player) (text : string) (prefixes : list string)
    (self : MultiChatWS) :
  text <> "!multichat connect" ->
  ignore_prefix self = JList (map JStr prefixes) ->
  let wanted := truthy (do_listen self) && negb (is_console player)
                && negb (ignored prefixes text) in
  let msg := "<" ++ name player ++ "> " ++ text in
  let frame := json_dumps (JDict [("action", JStr "client-message");
                                  ("content", JStr msg)]) in
  let o := on_player_input (player, text) self in
  o = (if wanted then
         if ws_valid self then
           Returned tt self
             [logger debug "MultiChat.on_player_input called";
              logger debug ("WebSocket sending: " ++ frame);
              sendTextMessage frame]
         else
           Returned tt self
             [logger debug "MultiChat.on_player_input called";
              logger warning "Tried to write websocket when not available"]
       else Returned tt self [logger debug "MultiChat.on_player_input called"])
  /\ transport_writes (calls_of o)
     = (if wanted && ws_valid self then [frame] else [])
  /\ (transport_writes (calls_of o) <> [] <->
      truthy (do_listen self) = true /\ is_console player = false
      /\ (forall p, In p prefixes -> String.prefix p text = false)
      /\ ws_valid self = true).
Proof.
  intros Hother Hprefixes wanted msg frame o.
  assert (Ho : o = if wanted then
                     if ws_valid self then
                       Returned tt self
                         [logger debug "MultiChat.on_player_input called";
                          logger debug ("WebSocket sending: " ++ frame);
                          sendTextMessage frame]
                     else
                       Returned tt self
                         [logger debug "MultiChat.on_player_input called";
                          logger warning
                            "Tried to write websocket when not available"]
                   else Returned tt self
                          [logger debug "MultiChat.on_player_input called"]).
  { unfold o. rewrite (on_player_input_chat _ _ _ _ Hother Hprefixes).
    fold wanted msg. destruct wanted; [ | reflexivity ].
    unfold send_msg, bind, get, emit. fold frame.
    destruct (ws_valid self); reflexivity. }
  assert (Hwrites : transport_writes (calls_of o)
                    = if wanted && ws_valid self then [frame] else [])
    by (rewrite Ho; destruct wanted; destruct (ws_valid self); reflexivity).
  split; [ exact Ho | split; [ exact Hwrites | ] ].
  rewrite Hwrites.
  assert (Hwanted : wanted = true <->
                    truthy (do_listen self) = true /\ is_console player = false
                    /\ forall p, In p prefixes -> String.prefix p text = false).
  { unfold wanted.
    rewrite !andb_true_iff, !negb_true_iff, ignored_false. tauto. }
  destruct wanted; destruct (ws_valid self); simpl; split.
  - intros _. destruct Hwanted as [Hw _]. specialize (Hw eq_refl). tauto.
  - intros _. discriminate.
  - intros Hne. now elim Hne.
  - intros [_ [_ [_ Hvalid]]]. discriminate.
  - intros Hne. now elim Hne.
  - intros [Hl [Hc [Hp _]]]. destruct Hwanted as [_ Hw].
    specialize (Hw (conj Hl (conj Hc Hp))). discriminate.
  - intros Hne. now elim Hne.
  - intros [_ [_ [_ Hvalid]]]. discriminate.
Qed.

End Forwarding.

(** ** Construction *)

Section Startup.
Context `{PyRuntime}.

Lemma read_config_lacking (d : list (string * json)) :
  lacks_required d = true ->
  exists e,
    read_config (JDict d) = Raise e
    /\ (e = AttributeError
        \/ exists k, In k required_fields /\ dict_get d k = None
                     /\ e = KeyError k).
Proof.
  unfold lacks_required, required_fields, dict_contains. simpl.
  unfold read_config, result_bind, getitem, normalize_url, dict_contains.
  destruct (dict_get d "multichat-url") as [u | ] eqn:Eurl.
  2: { intros _. eexists. split; [ reflexivity | right ].
       exists "multichat-url". simpl. auto 10. }
  destruct u; try (intros _; eexists; split; [ reflexivity | now left ]).
  destruct (dict_get d "multichat-key") as [k | ] eqn:Ekey.
  2: { intros _. eexists. split; [ reflexivity | right ].
       exists "multichat-key". simpl. auto 10. }
  assert (Hname : exists sn,
             (if match dict_get d "server-name" with
                 | Some _ => true
                 | None => false
                 end
              then match dict_get d "server-name" with
                   | Some x => Ok x
                   | None => Raise (KeyError "server-name")
                   end
              else Ok (JStr "")) = Ok sn)
    by (destruct (dict_get d "server-name"); eexists; reflexivity).
  destruct Hname as [sn Hname]. rewrite Hname.
  destruct (dict_get d "listen") as [dl | ] eqn:Elisten.
  2: { intros _. eexists. split; [ reflexivity | right ].
       exists "listen". simpl. auto 10. }
  destruct (dict_get d "post") as [dp | ] eqn:Epost.
  2: { intros _. eexists. split; [ reflexivity | right ].
       exists "post". simpl. auto 10. }
  destruct (dict_get d "ignore-prefix") as [ip | ] eqn:Eprefix.
  2: { intros _. eexists. split; [ reflexivity | right ].
       exists "ignore-prefix". simpl. auto 10. }
  simpl. discriminate.
Qed.

(** C9, as the code has it: with a configuration that lacks a required
    field, [__init__] raises, and so does [load]: a [KeyError] for a missing
    field (or the [AttributeError] of an url that is no text, met first),
    before anything is logged and before a slot is connected.  The module
    logs an error and stays disabled only when mcBasicLib is missing, and
    then the configuration was read in full. *)
Theorem missing_required_field_raises :
  (forall utils d,
     lacks_required d = true ->
     exists e,
       __init__ utils (JDict d) = Failed e []
       /\ (forall text,
             json_loads text = Ok (JDict d) ->
             load utils (Ok text) = Failed e [])
       /\ (e = AttributeError
           \/ exists k, In k required_fields /\ dict_get d k = None
                        /\ e = KeyError k))
  /\ (forall utils config calls,
        __init__ utils config = Disabled calls ->
        utils = false
        /\ (exists fields, read_config config = Ok fields)
        /\ exists warned,
             calls = (warned ++
               [logger error ("Failed to load plugin " ++ quoted "mcBasicLib"
                                ++ ", multiChat will be disabled.");
                logger error ("Please make sure that " ++ quoted "mcBasicLib"
                                ++ " has been added to plugins.")])%list).
Proof.
  split.
  - intros utils d Hlacks.
    destruct (read_config_lacking d Hlacks) as [e [Hread He]].
    assert (Hinit : __init__ utils (JDict d) = Failed e [])
      by (unfold __init__; rewrite Hread; reflexivity).
    exists e. split; [ exact Hinit | split; [ | exact He ] ].
    intros text Hloads. unfold load. rewrite Hloads. exact Hinit.
  - intros utils config calls. unfold __init__.
    destruct (read_config config) as [[[[[[u k] sn] dl] dp] ip] | e];
      [ | discriminate ].
    destruct (match config with JDict d => choose_lang d | _ => ("en", []) end)
      as [l warned].
    destruct utils; simpl; [ discriminate | ].
    intros Heq. inversion Heq; subst.
    split; [ reflexivity | split; eauto ].
Qed.

End Startup.

(** ** The theorems at the examples, with the reference runtime *)

Lemma fresh_is_built :
  @__init__ reference true example_config =
    Enabled fresh
      [logger info "Connecting to multichat server";
       tell at_a "multichat: connecting to server" None;
       ws_open "ws://hub.example/relay/"].
Proof. reflexivity. Qed.

Lemma fresh_reachable : @reachable reference fresh.
Proof. exact (@reach_init reference _ _ _ _ fresh_is_built). Defined.

Lemma registered_reachable : @reachable reference registered.
Proof.
  exact (@reach_deliver reference (textMessageReceived ack_frame) fresh
           fresh_reachable).
Defined.

(** Three losses of the connection in a row, from the fresh object. *)
Lemma on_connection_broken_reports_then_advances_witness :
  retry_interval fresh = 5000
  /\ @scheduled reference [disconnected; disconnected; disconnected] fresh
       = [5000; 10000; 20000]
  /\ broadcasts (@trace reference [disconnected; disconnected; disconnected] fresh)
       = [("multichat connection broken, retry after 5000ms", None);
          ("multichat connection broken, retry after 10000ms", None);
          ("multichat connection broken, retry after 20000ms", None)].
Proof.
  split; [ reflexivity | ].
  exact (proj2 (@on_connection_broken_reports_then_advances reference)
           fresh eq_refl).
Defined.

(** A run with a retry and a forwarded message between the losses. *)
Lemma retry_interval_bounded_and_monotone_witness :
  @reachable reference registered
  /\ forallb (@not_ack reference)
       [disconnected; timeout; textMessageReceived forwarding_frame;
        disconnected; connected; disconnected] = true
  /\ 5000 <= retry_interval registered <= 3600000
  /\ StronglySorted Z.le
       (@scheduled reference
          [disconnected; timeout; textMessageReceived forwarding_frame;
           disconnected; connected; disconnected] registered)
  /\ Forall (fun d => d <= RETRY_INTERVAL_MAX)
       (@scheduled reference
          [disconnected; timeout; textMessageReceived forwarding_frame;
           disconnected; connected; disconnected] registered).
Proof.
  split; [ exact registered_reachable | ].
  split; [ reflexivity | ].
  split.
  - exact (proj1 (@retry_interval_bounded_and_monotone reference)
             registered registered_reachable).
  - exact (proj2 (@retry_interval_bounded_and_monotone reference)
             [disconnected; timeout; textMessageReceived forwarding_frame;
              disconnected; connected; disconnected]
             registered registered_reachable eq_refl).
Defined.

(** A second acknowledgement, then a retry, then the loss of the connection. *)
Lemma register_ack_registers_on_every_frame_witness :
  @is_register_ack reference ack_frame = true
  /\ @reachable reference registered
  /\ ws_valid registered = true
  /\ @on_recv reference ack_frame registered =
       Returned tt registered
         [logger debug ("WebSocket received: " ++ ack_frame);
          logger info "Successfully registered.";
          tell at_a "multichat: server connected" None]
  /\ state_of (@on_recv reference ack_frame registered) = registered
  /\ @scheduled reference ([timeout; connected] ++ [disconnected])
       (@deliver reference (textMessageReceived ack_frame) registered)
       = [RETRY_INTERVAL_MIN].
Proof.
  pose proof (@register_ack_registers_on_every_frame reference
                ack_frame registered eq_refl) as [Hrecv [Hsame Hnext]].
  split; [ reflexivity | ].
  split; [ exact registered_reachable | ].
  split; [ reflexivity | ].
  split; [ exact Hrecv | ].
  split; [ exact (Hsame registered_reachable eq_refl) | ].
  exact (Hnext [timeout; connected] eq_refl).
Defined.

(** Bob says hello to a registered object; the prefix ["!"] is configured. *)
Lemma chat_reaches_the_hub_iff_listened_and_registered_witness :
  "hello" <> "!multichat connect"
  /\ ignore_prefix registered = JList (map JStr ["!"])
  /\ transport_writes
       (calls_of (@on_player_input reference (Bob, "hello") registered))
       = [@json_dumps reference
            (JDict [("action", JStr "client-message");
                    ("content", JStr "<Bob> hello")])].
Proof.
  assert (Hother : "hello" <> "!multichat connect")
    by (apply String.eqb_neq; reflexivity).
  pose proof (@chat_reaches_the_hub_iff_listened_and_registered reference
                Bob "hello" ["!"] registered Hother eq_refl)
    as [_ [Hwrites _]].
  split; [ exact Hother | ].
  split; [ reflexivity | ].
  exact Hwrites.
Defined.

(** The hub forwards [hi] from [Hub1]. *)
Lemma forwarding_message_is_posted_once_witness :
  @json_loads reference forwarding_frame =
    Ok (JDict [("action", JStr "forwarding-message");
               ("source-client-name", JStr "Hub1");
               ("content", JStr "hi")])
  /\ broadcasts (calls_of (@on_recv reference forwarding_frame registered))
       = [("[Hub1]hi", Some "#777777")].
Proof.
  split; [ reflexivity | ].
  exact (proj2 (@forwarding_message_is_posted_once reference
                  forwarding_frame
                  (JDict [("action", JStr "forwarding-message");
                          ("source-client-name", JStr "Hub1");
                          ("content", JStr "hi")])
                  "Hub1" "hi" registered
                  eq_refl eq_refl eq_refl eq_refl)).
Defined.

(** The console types the command while the connection is down, then
    something else. *)
Lemma console_can_issue_connect_command_witness :
  is_console console = true
  /\ "say hello" <> "!multichat connect"
  /\ @on_player_input reference (console, "!multichat connect") fresh
       = Returned tt fresh
           [logger debug "MultiChat.on_player_input called";
            logger info "Connecting to multichat server";
            tell at_a "multichat: connecting to server" None;
            ws_open "ws://hub.example/relay/"]
  /\ @on_player_input reference (console, "say hello") fresh
       = Returned tt fresh [logger debug "MultiChat.on_player_input called"].
Proof.
  assert (Hother : "say hello" <> "!multichat connect")
    by (apply String.eqb_neq; reflexivity).
  pose proof (@console_can_issue_connect_command reference console
                "say hello" fresh eq_refl) as [Hcommand Hchat].
  split; [ reflexivity | ].
  split; [ exact Hother | ].
  split; [ exact Hcommand | exact (Hchat Hother) ].
Defined.

(** A configuration with the url alone. *)
Lemma missing_required_field_raises_witness :
  lacks_required [("multichat-url", JStr "ws://hub.example/")] = true
  /\ exists e,
       @__init__ reference true
         (JDict [("multichat-url", JStr "ws://hub.example/")]) = Failed e [].
Proof.
  split; [ reflexivity | ].
  destruct (proj1 (@missing_required_field_raises reference) true
              [("multichat-url", JStr "ws://hub.example/")] eq_refl)
    as [e [Hinit _]].
  exists e. exact Hinit.
Defined.

(** ** Where the code departs from what is said of it *)

(** Against C1: three frames on which [on_recv] raises.  An empty dict has
    no ['action'], a list cannot be subscripted by a text, and a text that
    is no JSON is refused by [json.loads]. *)
Lemma on_recv_raises_on_malformed_frames :
  @on_recv reference "{}" registered
    = Raised (KeyError "action") registered
        [logger debug "WebSocket received: {}"]
  /\ @on_recv reference "[]" registered
    = Raised TypeError registered [logger debug "WebSocket received: []"]
  /\ @on_recv reference "hello" registered
    = Raised JSONDecodeError registered
        [logger debug "WebSocket received: hello"].
Proof. repeat split. Qed.

(** Against C5: an acknowledgement that reaches a registered object is not
    ignored, it is announced again; two in a row tell the players twice. *)
Lemma duplicate_ack_is_announced_again :
  ws_valid registered = true
  /\ broadcasts (calls_of (@on_recv reference ack_frame registered))
       = [("multichat: server connected", None)]
  /\ broadcasts
       (@trace reference
          [textMessageReceived ack_frame; textMessageReceived ack_frame] fresh)
       = [("multichat: server connected", None);
          ("multichat: server connected", None)].
Proof. repeat split. Qed.

(** Against C6: Bob says hello to the object as built, before any
    acknowledgement.  [do_listen] is set, Bob is not the console and the
    text starts with no configured prefix, yet nothing is written to the
    websocket: [send_msg] logs its warning and the text is lost. *)
Lemma chat_is_dropped_while_unregistered :
  truthy (do_listen fresh) = true
  /\ is_console Bob = false
  /\ ignore_prefix fresh = JList (map JStr ["!"])
  /\ ignored ["!"] "hello" = false
  /\ @on_player_input reference (Bob, "hello") fresh
     = Returned tt fresh
         [logger debug "MultiChat.on_player_input called";
          logger warning "Tried to write websocket when not available"]
  /\ transport_writes
       (calls_of (@on_player_input reference (Bob, "hello") fresh)) = [].
Proof. repeat split. Qed.

(** Against C9: a configuration without its key makes [__init__], and
    [load] with it, raise [KeyError]; nothing is logged, and the result is
    not a disabled object. *)
Lemma init_raises_on_missing_field :
  @__init__ reference true
    (JDict [("multichat-url", JStr "ws://hub.example/")])
    = Failed (KeyError "multichat-key") []
  /\ @load reference true
       (Ok ("{" ++ quoted "multichat-url" ++ ": "
                ++ quoted "ws://hub.example/" ++ "}"))
    = Failed (KeyError "multichat-key") [].
Proof. split; reflexivity. Qed.

(** ** Beyond the claims: construction *)

Section Built.
Context `{PyRuntime}.

Lemma rstrip_splits (c : ascii) (s : string) :
  exists n, s = rstrip c s ++ replicate n c.
Proof.
  induction s as [ | a t [n IH]]; simpl.
  - exists O. reflexivity.
  - destruct (rstrip c t) as [ | b t'] eqn:Et.
    + destruct (Ascii.eqb_spec a c) as [-> | Hne].
      * exists (S n). simpl. simpl in IH. now rewrite <- IH.
      * exists n. simpl. simpl in IH. now rewrite <- IH.
    + exists n. simpl. simpl in IH. now rewrite <- IH.
Qed.

Lemma rstrip_ends (c : ascii) (s : string) :
  ends_with c (rstrip c s) = false.
Proof.
  induction s as [ | a t IH]; simpl.
  - reflexivity.
  - destruct (rstrip c t) as [ | b t'] eqn:Et.
    + destruct (Ascii.eqb_spec a c) as [-> | Hne]; simpl.
      * reflexivity.
      * now apply Ascii.eqb_neq.
    + exact IH.
Qed.

Lemma ends_with_append (c : ascii) (s : string) :
  ends_with c (s ++ String c EmptyString) = true.
Proof.
  induction s as [ | a t IH]; simpl.
  - apply Ascii.eqb_refl.
  - destruct (t ++ String c EmptyString) eqn:Et; [ | exact IH ].
    destruct t; discriminate.
Qed.

Lemma choose_lang_cases (d : list (string * json)) :
  match dict_get d "lang" with
  | None => choose_lang d = ("en", [])
  | Some v =>
      if existsb (eq_str v) SUPPORTED_LANGUAGES
      then exists l, v = JStr l /\ choose_lang d = (l, [])
      else choose_lang d
           = ("en", [logger warning ("Not supported language: " ++ py_str v)])
  end.
Proof.
  unfold choose_lang, dict_contains.
  destruct (dict_get d "lang") as [v | ]; [ | reflexivity ].
  destruct v; simpl; try reflexivity.
  destruct ((s =? "en")%string || ((s =? "zh-cn")%string || false));
    [ eexists; split; reflexivity | reflexivity ].
Qed.

(** The object [__init__] builds, field by field. *)
Lemma init_enabled_fields utils cfg self calls :
  __init__ utils cfg = Enabled self calls ->
  exists d s,
    cfg = JDict d /\ utils = true
    /\ dict_get d "multichat-url" = Some (JStr s)
    /\ dict_get d "multichat-key" = Some (key self)
    /\ dict_get d "listen" = Some (do_listen self)
    /\ dict_get d "post" = Some (do_post self)
    /\ dict_get d "ignore-prefix" = Some (ignore_prefix self)
    /\ server_name self = match dict_get d "server-name" with
                          | Some v => v
                          | None => JStr ""
                          end
    /\ config self = cfg
    /\ url self = rstrip "/" s ++ "/"
    /\ lang self = fst (choose_lang d)
    /\ ws_valid self = false
    /\ retry_interval self = RETRY_INTERVAL_MIN
    /\ retry_timer self = {| interval := 0; isActive := false |}
    /\ calls = (snd (choose_lang d) ++
                [logger info "Connecting to multichat server";
                 tell at_a "multichat: connecting to server" None;
                 ws_open (url self)])%list.
Proof.
  unfold __init__, read_config, result_bind, getitem, normalize_url,
    dict_contains.
  destruct cfg as [ | | | | | | d]; try discriminate.
  destruct (dict_get d "multichat-url") as [u | ] eqn:Eurl; [ | discriminate ].
  destruct u as [ | | | | s | | ]; try discriminate.
  destruct (dict_get d "multichat-key") as [k | ] eqn:Ekey; [ | discriminate ].
  destruct (dict_get d "server-name") as [sn | ] eqn:Ename;
    (destruct (dict_get d "listen") as [dl | ] eqn:Elisten; [ | discriminate ];
     destruct (dict_get d "post") as [dp | ] eqn:Epost; [ | discriminate ];
     destruct (dict_get d "ignore-prefix") as [ip | ] eqn:Eprefix;
       [ | discriminate ];
     destruct (choose_lang d) as [l warned] eqn:Elang;
     destruct utils; [ | discriminate ];
     intros Hbuilt; exists d, s;
     simpl in Hbuilt; inversion Hbuilt; subst; simpl;
     rewrite ?Eurl, ?Ekey, ?Ename, ?Elisten, ?Epost, ?Eprefix, ?Elang;
     repeat (split; [ reflexivity | ]); reflexivity).
Qed.

Lemma observations_app (c1 c2 : list call) :
  warnings (c1 ++ c2) = (warnings c1 ++ warnings c2)%list
  /\ openings (c1 ++ c2) = (openings c1 ++ openings c2)%list
  /\ transport_writes (c1 ++ c2)
     = (transport_writes c1 ++ transport_writes c2)%list
  /\ broadcasts (c1 ++ c2) = (broadcasts c1 ++ broadcasts c2)%list.
Proof.
  induction c1 as [ | c c1 [IHw [IHo [IHt IHb]]]]; simpl.
  - repeat split.
  - destruct c as [l msg | r msg color | data | u]; simpl;
      try destruct l; try destruct r; simpl;
      rewrite ?IHw, ?IHo, ?IHt, ?IHb; repeat split.
Qed.

Lemma choose_lang_calls (d : list (string * json)) :
  openings (snd (choose_lang d)) = []
  /\ transport_writes (snd (choose_lang d)) = []
  /\ broadcasts (snd (choose_lang d)) = []
  /\ In (fst (choose_lang d)) SUPPORTED_LANGUAGES.
Proof.
  pose proof (choose_lang_cases d) as Hcases.
  destruct (dict_get d "lang") as [v | ].
  - destruct (existsb (eq_str v) SUPPORTED_LANGUAGES) eqn:Hin.
    + destruct Hcases as [l [-> ->]]. simpl in *.
      repeat split; try reflexivity.
      apply orb_true_iff in Hin as [Hen | Hin].
      * left. symmetry. now apply String.eqb_eq.
      * apply orb_true_iff in Hin as [Hzh | Hin]; [ | discriminate ].
        right; left. symmetry. now apply String.eqb_eq.
    + rewrite Hcases. simpl. repeat split; auto.
  - rewrite Hcases. simpl. repeat split; auto.
Qed.

(** X1: the url kept by [__init__] is the configured one with its trailing
    slashes replaced by exactly one: the configured text is a stem followed
    by slashes only, the stem does not end in a slash, and the url is the
    stem and one slash. *)
Theorem url_ends_in_one_slash utils cfg self calls :
  __init__ utils cfg = Enabled self calls ->
  exists s stem n,
    getitem cfg "multichat-url" = Ok (JStr s)
    /\ s = stem ++ replicate n "/"
    /\ ends_with "/" stem = false
    /\ url self = stem ++ "/"
    /\ ends_with "/" (url self) = true.
Proof.
  intros Hbuilt.
  destruct (init_enabled_fields _ _ _ _ Hbuilt)
    as (d & s & -> & Hutils & Hurl & Hkey & Hlisten & Hpost & Hprefix & Hname
        & Hconfig & Hself & Hlang & Hvalid & Hmin & Htimer & Hcalls).
  destruct (rstrip_splits "/" s) as [n Hsplit].
  exists s, (rstrip "/" s), n. simpl. rewrite Hurl.
  split; [ reflexivity | ].
  split; [ exact Hsplit | ].
  split; [ apply rstrip_ends | ].
  split; [ exact Hself | ].
  rewrite Hself. apply ends_with_append.
Qed.

(** X2: the language of a built object is always one of the supported
    ones.  It is the configured ['lang'] when that is supported; otherwise
    it is ['en'], with one warning naming the refused value when a ['lang']
    was configured and none when it was not. *)
Theorem lang_is_supported utils cfg self calls :
  __init__ utils cfg = Enabled self calls ->
  In (lang self) SUPPORTED_LANGUAGES
  /\ exists d,
       cfg = JDict d
       /\ match dict_get d "lang" with
          | None => lang self = "en" /\ warnings calls = []
          | Some v =>
              if existsb (eq_str v) SUPPORTED_LANGUAGES
              then v = JStr (lang self) /\ warnings calls = []
              else lang self = "en"
                   /\ warnings calls
                      = ["Not supported language: " ++ py_str v]
          end.
Proof.
  intros Hbuilt.
  destruct (init_enabled_fields _ _ _ _ Hbuilt)
    as (d & s & -> & Hutils & Hurl & Hkey & Hlisten & Hpost & Hprefix & Hname
        & Hconfig & Hself & Hlang & Hvalid & Hmin & Htimer & Hcalls).
  split.
  - rewrite Hlang. apply choose_lang_calls.
  - exists d. split; [ reflexivity | ].
    assert (Hwarn : warnings calls = warnings (snd (choose_lang d))).
    { rewrite Hcalls.
      destruct (observations_app (snd (choose_lang d))
                  [logger info "Connecting to multichat server";
                   tell at_a "multichat: connecting to server" None;
                   ws_open (url self)]) as [-> _].
      simpl. now rewrite app_nil_r. }
    rewrite Hwarn, Hlang.
    pose proof (choose_lang_cases d) as Hcases.
    destruct (dict_get d "lang") as [v | ].
    + destruct (existsb (eq_str v) SUPPORTED_LANGUAGES).
      * destruct Hcases as [l [-> ->]]. split; reflexivity.
      * rewrite Hcases. split; reflexivity.
    + rewrite Hcases. split; reflexivity.
Qed.

(** X3: construction ends in one of three ways.  With every required field
    present, the url a text and mcBasicLib loaded, the object is enabled:
    unregistered, with the minimal retry interval and a stopped timer,
    having opened the websocket once, at its url, and written nothing to it.
    Without mcBasicLib it is disabled and the websocket is never opened and
    no player is told anything. *)
Theorem construction_opens_the_websocket_once :
  (forall utils cfg self calls,
     __init__ utils cfg = Enabled self calls ->
     utils = true
     /\ ws_valid self = false
     /\ retry_interval self = RETRY_INTERVAL_MIN
     /\ isActive (retry_timer self) = false
     /\ openings calls = [url self]
     /\ transport_writes calls = [])
  /\ (forall utils cfg calls,
        __init__ utils cfg = Disabled calls ->
        openings calls = [] /\ broadcasts calls = []
        /\ transport_writes calls = [])
  /\ (forall (utils : bool) d s,
        lacks_required d = false ->
        dict_get d "multichat-url" = Some (JStr s) ->
        if utils
        then exists self calls, __init__ utils (JDict d) = Enabled self calls
        else exists calls, __init__ utils (JDict d) = Disabled calls).
Proof.
  split; [ | split ].
  - intros utils cfg self calls Hbuilt.
    destruct (init_enabled_fields _ _ _ _ Hbuilt)
    as (d & s & -> & Hutils & Hurl & Hkey & Hlisten & Hpost & Hprefix & Hname
        & Hconfig & Hself & Hlang & Hvalid & Hmin & Htimer & Hcalls).
    destruct (choose_lang_calls d) as [Hopen [Hwrites _]].
    repeat (split; [ assumption | ]).
    split; [ now rewrite Htimer | ].
    rewrite Hcalls.
    destruct (observations_app (snd (choose_lang d))
                [logger info "Connecting to multichat server";
                 tell at_a "multichat: connecting to server" None;
                 ws_open (url self)]) as [_ [-> [-> _]]].
    rewrite Hopen, Hwrites. split; reflexivity.
  - intros utils cfg calls. unfold __init__.
    destruct (read_config cfg) as [[[[[[u k] sn] dl] dp] ip] | e];
      [ | discriminate ].
    destruct cfg as [ | | | | | | d];
      try (destruct utils; simpl; [ discriminate | ];
           intros Heq; inversion Heq; subst; repeat split; fail).
    pose proof (choose_lang_calls d) as [Hopen [Hwrites [Hbroad _]]].
    destruct (choose_lang d) as [l warned]. simpl in *.
    destruct utils; simpl; [ discriminate | ].
    intros Heq. inversion Heq; subst.
    match goal with
    | |- context [(warned ++ ?errors)%list] =>
        destruct (observations_app warned errors) as [_ [-> [-> ->]]]
    end.
    rewrite Hopen, Hwrites, Hbroad. repeat split.
  - intros utils d s Hfull Hurl.
    unfold lacks_required, required_fields, dict_contains in Hfull.
    simpl in Hfull. rewrite Hurl in Hfull. simpl in Hfull.
    unfold __init__, read_config, result_bind, getitem, normalize_url,
      dict_contains.
    rewrite Hurl.
    destruct (dict_get d "multichat-key"); [ | discriminate ].
    destruct (dict_get d "listen"); [ | discriminate ].
    destruct (dict_get d "post"); [ | discriminate ].
    destruct (dict_get d "ignore-prefix"); [ | discriminate ].
    destruct (choose_lang d) as [l warned].
    destruct (dict_get d "server-name"); destruct utils; simpl; eauto.
Qed.

End Built.

(** ** Beyond the claims: what each slot leaves behind *)

(** Unfolds a slot down to its branches and decides them one by one. *)
Ltac unfold_slot :=
  unfold slot, on_connected, on_recv, on_player_input, on_player_login,
    on_player_logout, on_advancement, on_death, on_retry_timer,
    on_connection_broken, send_msg, post, on_timer, bind, emit, get, modify,
    lift, ret, raise.

Ltac split_innermost x :=
  lazymatch x with
  | context [match ?y with _ => _ end] => split_innermost y
  | _ => destruct x eqn:?
  end.

Ltac by_cases :=
  repeat (simpl;
          match goal with
          | |- context [match ?x with _ => _ end] => split_innermost x
          end);
  simpl; try reflexivity; try discriminate.

Section SlotEffects.
Context `{PyRuntime}.

Lemma on_connected_state (self : MultiChatWS) :
  state_of (on_connected self) = self.
Proof. unfold_slot. by_cases. Qed.

Lemma on_player_input_state (player : Player) (text : string)
    (self : MultiChatWS) :
  state_of (on_player_input (player, text) self) =
    if String.eqb text "!multichat connect" && negb (ws_valid self)
    then set_retry_timer (stop (retry_timer self)) self
    else self.
Proof. unfold_slot. by_cases. Qed.

Lemma notification_state (self : MultiChatWS) :
  (forall player, state_of (on_player_login player self) = self)
  /\ (forall player, state_of (on_player_logout player self) = self)
  /\ (forall advc, state_of (on_advancement advc self) = self)
  /\ (forall death_obj, state_of (on_death death_obj self) = self).
Proof. repeat split; intros; unfold_slot; by_cases. Qed.

(** The object after a signal: only the loss of the connection, an
    acknowledgement, the retry timeout and the reconnect command of an
    unregistered object assign anything. *)
Lemma deliver_state (e : signal) (self : MultiChatWS) :
  deliver e self =
    match e with
    | disconnected =>
        set_retry_interval (Z.min RETRY_INTERVAL_MAX (retry_interval self * 2))
          (set_retry_timer {| interval := retry_interval self; isActive := true |}
             (set_ws_valid false self))
    | textMessageReceived message =>
        if is_register_ack message
        then set_retry_interval RETRY_INTERVAL_MIN (set_ws_valid true self)
        else self
    | timeout => set_retry_timer (stop (retry_timer self)) self
    | sig_input (player, text) =>
        if String.eqb text "!multichat connect" && negb (ws_valid self)
        then set_retry_timer (stop (retry_timer self)) self
        else self
    | _ => self
    end.
Proof.
  destruct (notification_state self) as [Hlogin [Hlogout [Hadv Hdeath]]].
  destruct e as [ | message | | | [player text] | player | player | advc | d];
    unfold deliver, slot.
  - apply on_connected_state.
  - apply on_recv_state.
  - reflexivity.
  - reflexivity.
  - apply on_player_input_state.
  - apply Hlogin.
  - apply Hlogout.
  - apply Hadv.
  - apply Hdeath.
Qed.

Lemma deliver_settings (e : signal) (self : MultiChatWS) :
  settings (deliver e self) = settings self.
Proof.
  rewrite deliver_state.
  destruct e as [ | message | | | [player text] | | | | ]; try reflexivity.
  - now destruct (is_register_ack message).
  - now destruct (String.eqb text "!multichat connect" && negb (ws_valid self)).
Qed.

Lemma run_settings (es : list signal) (self : MultiChatWS) :
  settings (run es self) = settings self.
Proof.
  revert self. induction es as [ | e es IH]; intros self; simpl.
  - reflexivity.
  - fold (run es (deliver e self)). rewrite IH. apply deliver_settings.
Qed.

Lemma run_app (es1 es2 : list signal) (self : MultiChatWS) :
  run (es1 ++ es2) self = run es2 (run es1 self).
Proof. unfold run. apply fold_left_app. Qed.

Lemma reachable_lang (self : MultiChatWS) :
  reachable self -> lang self = "en" \/ lang self = "zh-cn".
Proof.
  induction 1 as [utils cfg self calls Hbuilt | e self Hreach IH].
  - destruct (init_enabled_fields _ _ _ _ Hbuilt)
      as (d & s & -> & Hutils & Hurl & Hkey & Hlisten & Hpost & Hprefix & Hname
          & Hconfig & Hself & Hlang & Hvalid & Hmin & Htimer & Hcalls).
    destruct (choose_lang_calls d) as [_ [_ [_ Hin]]].
    rewrite Hlang. simpl in Hin. intuition.
  - pose proof (deliver_settings e self) as Hsame.
    apply (f_equal snd) in Hsame. simpl in Hsame. now rewrite Hsame.
Qed.

(** The frames a slot writes to the websocket. *)
Lemma slot_writes (e : signal) (self : MultiChatWS) :
  ws_valid self = false ->
  is_connected e = false ->
  transport_writes (calls_of (slot e self)) = [].
Proof.
  intros Hvalid Hother.
  destruct e as [ | message | | | [player text] | player | player | advc | d];
    try discriminate; unfold_slot; rewrite ?Hvalid; by_cases.
Qed.

Lemma on_connected_writes (self : MultiChatWS) :
  transport_writes (calls_of (on_connected self)) = []
  \/ exists client_name,
       transport_writes (calls_of (on_connected self))
       = [json_dumps (register_obj client_name (key self))].
Proof.
  unfold_slot. unfold register_obj.
  destruct (truthy (server_name self)); simpl.
  - destruct (server_name self); simpl; auto. right. eexists. reflexivity.
  - right. eexists. reflexivity.
Qed.

(** The urls a slot opens the websocket at. *)
Lemma slot_openings (e : signal) (self : MultiChatWS) :
  openings (calls_of (slot e self)) =
    match e with
    | timeout => [url self]
    | sig_input (player, text) =>
        if String.eqb text "!multichat connect" && negb (ws_valid self)
        then [url self]
        else []
    | _ => []
    end.
Proof.
  destruct e as [ | message | | | [player text] | player | player | advc | d];
    unfold_slot; by_cases.
Qed.

Lemma trace_app (es1 es2 : list signal) (self : MultiChatWS) :
  trace (es1 ++ es2) self = (trace es1 self ++ trace es2 (run es1 self))%list.
Proof.
  revert self. induction es1 as [ | e es1 IH]; intros self; simpl.
  - reflexivity.
  - fold (run es1 (deliver e self)). rewrite IH. now rewrite app_assoc.
Qed.

End SlotEffects.

(** ** Beyond the claims: the slots along a run *)

Section Runs.
Context `{PyRuntime}.

Lemma deliver_key_url (e : signal) (self : MultiChatWS) :
  key (deliver e self) = key self /\ url (deliver e self) = url self.
Proof.
  rewrite deliver_state.
  destruct e as [ | message | | | [player text] | | | | ];
    try (split; reflexivity).
  - destruct (is_register_ack message); split; reflexivity.
  - destruct (String.eqb text "!multichat connect" && negb (ws_valid self));
      split; reflexivity.
Qed.

Lemma run_unregistered (es : list signal) (self : MultiChatWS) :
  ws_valid self = false ->
  forallb not_ack es = true ->
  ws_valid (run es self) = false.
Proof.
  revert self. induction es as [ | e es IH]; intros self Hvalid Hes; simpl.
  - exact Hvalid.
  - simpl in Hes. apply andb_true_iff in Hes as [He Hes].
    fold (run es (deliver e self)). apply IH; [ | exact Hes ].
    rewrite deliver_ws_valid.
    destruct e; try assumption; try reflexivity.
    simpl in He. apply negb_true_iff in He. now rewrite He.
Qed.

Lemma run_registered (es : list signal) (self : MultiChatWS) :
  ws_valid self = true ->
  forallb (fun e => negb (is_disconnected e)) es = true ->
  ws_valid (run es self) = true.
Proof.
  revert self. induction es as [ | e es IH]; intros self Hvalid Hes; simpl.
  - exact Hvalid.
  - simpl in Hes. apply andb_true_iff in Hes as [He Hes].
    fold (run es (deliver e self)). apply IH; [ | exact Hes ].
    rewrite deliver_ws_valid.
    destruct e; try assumption; try discriminate.
    now destruct (is_register_ack message).
Qed.

Lemma cap_absorbs (a k : Z) :
  1 <= k ->
  Z.min RETRY_INTERVAL_MAX (Z.min RETRY_INTERVAL_MAX a * k)
  = Z.min RETRY_INTERVAL_MAX (a * k).
Proof.
  unfold RETRY_INTERVAL_MAX. intros Hk.
  destruct (Z.le_gt_cases a (3600 * 1000)) as [Hle | Hgt].
  - now rewrite (Z.min_r _ a) by exact Hle.
  - rewrite (Z.min_l _ a) by lia.
    rewrite !Z.min_l; [ reflexivity | nia | nia ].
Qed.

Lemma run_losses (n : nat) (self : MultiChatWS) :
  retry_interval (run (repeat disconnected n) self)
  = Z.min RETRY_INTERVAL_MAX (retry_interval self * 2 ^ Z.of_nat n)
    \/ n = O.
Proof.
  revert self. induction n as [ | n IH]; intros self.
  - now right.
  - left. simpl repeat. simpl run.
    fold (run (repeat disconnected n) (deliver disconnected self)).
    destruct (IH (deliver disconnected self)) as [Hrun | ->].
    + rewrite Hrun, deliver_retry_interval.
      rewrite cap_absorbs by (pose proof (Z.pow_pos_nonneg 2 (Z.of_nat n));
                              lia).
      rewrite Nat2Z.inj_succ, Z.pow_succ_r by lia.
      f_equal. ring.
    + unfold run. simpl fold_left. rewrite deliver_retry_interval.
      reflexivity.
Qed.

Lemma scheduled_losses (n : nat) (self : MultiChatWS) :
  retry_interval self <= RETRY_INTERVAL_MAX ->
  scheduled (repeat disconnected n) self
  = map (fun k => Z.min RETRY_INTERVAL_MAX (retry_interval self * 2 ^ Z.of_nat k))
      (seq 0 n).
Proof.
  revert self. induction n as [ | n IH]; intros self Hle.
  - reflexivity.
  - simpl repeat. simpl scheduled.
    rewrite IH by (rewrite deliver_retry_interval; apply Z.le_min_l).
    simpl seq. simpl map. f_equal.
    + change (2 ^ Z.of_nat 0) with 1. rewrite Z.mul_1_r.
      now rewrite Z.min_r by exact Hle.
    + rewrite <- seq_shift, map_map. apply map_ext. intros k.
      rewrite cap_absorbs by (pose proof (Z.pow_pos_nonneg 2 (Z.of_nat k));
                              lia).
      rewrite Nat2Z.inj_succ, Z.pow_succ_r by lia.
      f_equal. ring.
Qed.

(** X4: [on_connected] writes exactly one frame, the registration, whose
    client name is ["MC-"] followed by the server name, or ["MC"] alone when
    the server name is empty or any other false value; it carries the key
    and leaves the object as it was, unregistered until the acknowledgement.
    A server name that is true but no text makes the slot raise [TypeError]
    after its first log line, with nothing written. *)
Theorem on_connected_registers_under_its_name (self : MultiChatWS) :
  let sent client_name :=
    let frame := json_dumps (register_obj client_name (key self)) in
    Returned tt self
      [logger info ("Successfully connected to: " ++ url self);
       logger debug ("WebSocket sending:  " ++ frame);
       sendTextMessage frame] in
  on_connected self =
    match server_name self with
    | JStr s => if String.eqb s "" then sent "MC" else sent ("MC-" ++ s)
    | v =>
        if truthy v
        then Raised TypeError self
               [logger info ("Successfully connected to: " ++ url self)]
        else sent "MC"
    end.
Proof.
  intros sent. subst sent. unfold_slot. unfold register_obj.
  destruct (server_name self) as [ | b | z | f | s | l | d]; simpl;
    try reflexivity.
  - now destruct b.
  - now destruct (z =? 0).
  - now destruct f.
  - now destruct (String.eqb s "").
  - now destruct l.
  - now destruct d.
Qed.

(** X5: the settings of an object are those of its configuration for its
    whole life: after any run of signals the object still holds the
    configured key, flags, prefixes and server name (the empty text when
    none was configured), and the url and the language chosen at
    construction. *)
Theorem settings_are_those_of_the_configuration
    utils cfg self calls (es : list signal) :
  __init__ utils cfg = Enabled self calls ->
  settings (run es self) = settings self
  /\ config (run es self) = cfg
  /\ getitem cfg "multichat-key" = Ok (key (run es self))
  /\ getitem cfg "listen" = Ok (do_listen (run es self))
  /\ getitem cfg "post" = Ok (do_post (run es self))
  /\ getitem cfg "ignore-prefix" = Ok (ignore_prefix (run es self))
  /\ server_name (run es self)
     = match getitem cfg "server-name" with
       | Ok v => v
       | Raise _ => JStr ""
       end.
Proof.
  intros Hbuilt.
  destruct (init_enabled_fields _ _ _ _ Hbuilt)
    as (d & s & -> & Hutils & Hurl & Hkey & Hlisten & Hpost & Hprefix & Hname
        & Hconfig & Hself & Hlang & Hvalid & Hmin & Htimer & Hcalls).
  pose proof (run_settings es self) as Hsame.
  split; [ exact Hsame | ].
  unfold settings in Hsame.
  injection Hsame as -> _ -> -> -> -> -> _.
  simpl. rewrite Hkey, Hlisten, Hpost, Hprefix, Hname.
  repeat (split; [ assumption || reflexivity | ]).
  now destruct (dict_get d "server-name").
Qed.

(** X6: logins, logouts, advancements and deaths are handed to [send_msg]
    whatever [do_listen] says and whoever the actor is.  In an object the
    event loop can reach, a login or logout never raises: the text is the
    English or the Chinese sentence, by the language of the object. *)
Theorem notifications_bypass_listen (self : MultiChatWS) :
  reachable self ->
  (forall player, exists msg,
     (lang self = "en" /\ msg = name player ++ " joined the game"
      \/ lang self = "zh-cn" /\ msg = name player ++ "加入了游戏")
     /\ on_player_login player self
        = Returned tt self
            (logger debug "MultiChat.on_player_login called"
               :: calls_of (send_msg msg self)))
  /\ (forall player, exists msg,
        (lang self = "en" /\ msg = name player ++ " left the game"
         \/ lang self = "zh-cn" /\ msg = name player ++ "退出了游戏")
        /\ on_player_logout player self
           = Returned tt self
               (logger debug "MultiChat.on_player_logout called"
                  :: calls_of (send_msg msg self)))
  /\ (forall advc,
        on_advancement advc self
        = Returned tt self
            (logger debug "MultiChat.on_advancement called"
               :: calls_of (send_msg (advc (lang self)) self)))
  /\ (forall death_obj,
        on_death death_obj self
        = Returned tt self
            (logger debug "MultiChat.on_death called"
               :: calls_of (send_msg (death_obj (lang self)) self))).
Proof.
  intros Hreach. apply reachable_lang in Hreach.
  split; [ | split; [ | split ] ].
  - intros player. destruct Hreach as [Hl | Hl].
    + exists (name player ++ " joined the game"). split; [ now left | ].
      unfold_slot. rewrite Hl. simpl. now destruct (ws_valid self).
    + exists (name player ++ "加入了游戏"). split; [ now right | ].
      unfold_slot. rewrite Hl. simpl. now destruct (ws_valid self).
  - intros player. destruct Hreach as [Hl | Hl].
    + exists (name player ++ " left the game"). split; [ now left | ].
      unfold_slot. rewrite Hl. simpl. now destruct (ws_valid self).
    + exists (name player ++ "退出了游戏"). split; [ now right | ].
      unfold_slot. rewrite Hl. simpl. now destruct (ws_valid self).
  - intros advc. unfold_slot. now destruct (ws_valid self).
  - intros death_obj. unfold_slot. now destruct (ws_valid self).
Qed.

(** X7: while the object is unregistered nothing but registrations goes to
    the hub: over any run of signals without an acknowledgement, from an
    unregistered object, every frame written to the websocket is the
    registration of [on_connected] carrying the key; and without a
    [connected] signal in the run nothing is written at all. *)
Theorem unregistered_object_only_registers
    (es : list signal) (self : MultiChatWS) :
  ws_valid self = false ->
  forallb not_ack es = true ->
  Forall (fun frame =>
            exists client_name,
              frame = json_dumps (register_obj client_name (key self)))
    (transport_writes (trace es self))
  /\ (forallb (fun e => negb (is_connected e)) es = true ->
      transport_writes (trace es self) = []).
Proof.
  revert self. induction es as [ | e es IH]; intros self Hvalid Hes.
  - split; [ constructor | reflexivity ].
  - simpl in Hes. apply andb_true_iff in Hes as [He Hes].
    assert (Hnext : ws_valid (deliver e self) = false)
      by (apply (run_unregistered [e] self Hvalid); simpl; now rewrite He).
    destruct (IH (deliver e self) Hnext Hes) as [IHall IHnone].
    destruct (deliver_key_url e self) as [Hkey _]. rewrite Hkey in IHall.
    simpl trace.
    destruct (observations_app (calls_of (slot e self))
                (trace es (deliver e self))) as [_ [_ [-> _]]].
    split.
    + apply Forall_app. split; [ | exact IHall ].
      destruct e; try (rewrite slot_writes by (assumption || reflexivity);
                       constructor).
      simpl slot.
      destruct (on_connected_writes self) as [-> | [cn ->]];
        repeat constructor. now exists cn.
    + intros Hquiet. simpl in Hquiet.
      apply andb_true_iff in Hquiet as [Hq Hquiet].
      apply negb_true_iff in Hq.
      rewrite slot_writes by assumption. now apply IHnone.
Qed.

(** X8: a frame from the hub is never answered and never makes the object
    reconnect: whatever the frame, [on_recv] writes nothing to the
    websocket, does not open it and leaves the retry timer alone. *)
Theorem on_recv_never_answers (message : string) (self : MultiChatWS) :
  transport_writes (calls_of (on_recv message self)) = []
  /\ openings (calls_of (on_recv message self)) = []
  /\ retry_timer (state_of (on_recv message self)) = retry_timer self.
Proof.
  split; [ | split ].
  - unfold_slot. by_cases.
  - unfold_slot. by_cases.
  - rewrite on_recv_state. now destruct (is_register_ack message).
Qed.

(** X9: a frame with an ['action'] that is neither the acknowledgement nor
    a forwarding message to be posted is dropped without a word: the slot
    returns, the frame is in the debug log and nothing else happens.  That
    holds for an action that is no text, and for a forwarding message
    without source or content while [do_post] is off. *)
Theorem other_actions_are_dropped
    (message : string) (data action : json) (self : MultiChatWS) :
  json_loads message = Ok data ->
  getitem data "action" = Ok action ->
  eq_str action "register-ack" = false ->
  eq_str action "forwarding-message" && truthy (do_post self) = false ->
  on_recv message self =
    Returned tt self [logger debug ("WebSocket received: " ++ message)].
Proof.
  intros Hloads Haction Hack Hforward. unfold_slot.
  rewrite Hloads. simpl. rewrite Haction. simpl.
  rewrite Hack. simpl. rewrite Hforward. reflexivity.
Qed.

(** X10: losses of the connection in a row double the delay up to the cap:
    after [n] of them the retry interval is the smaller of the maximum and
    the interval before times two to the [n], and the delays the timer was
    started with are those values for 0, 1, ... in turn.  From an object
    the event loop can reach, ten losses are enough to reach the maximum. *)
Theorem backoff_doubles_to_the_cap :
  (forall n self,
     retry_interval self <= RETRY_INTERVAL_MAX ->
     retry_interval (run (repeat disconnected n) self)
     = Z.min RETRY_INTERVAL_MAX (retry_interval self * 2 ^ Z.of_nat n))
  /\ (forall n self,
        retry_interval self <= RETRY_INTERVAL_MAX ->
        scheduled (repeat disconnected n) self
        = map (fun k => Z.min RETRY_INTERVAL_MAX
                          (retry_interval self * 2 ^ Z.of_nat k))
            (seq 0 n))
  /\ (forall n self,
        reachable self -> (10 <= n)%nat ->
        retry_interval (run (repeat disconnected n) self)
        = RETRY_INTERVAL_MAX).
Proof.
  split; [ | split ].
  - intros n self Hle. destruct (run_losses n self) as [Hrun | ->].
    + exact Hrun.
    + change (2 ^ Z.of_nat 0) with 1. rewrite Z.mul_1_r.
      now rewrite Z.min_r by exact Hle.
  - exact scheduled_losses.
  - intros n self Hreach Hn.
    apply reachable_invariant in Hreach as [[Hmin Hmax] _].
    destruct (run_losses n self) as [Hrun | ->]; [ | lia ].
    rewrite Hrun. apply Z.min_l.
    assert (Hpow : 2 ^ 10 <= 2 ^ Z.of_nat n)
      by (apply Z.pow_le_mono_r; lia).
    change (2 ^ 10) with 1024 in Hpow.
    unfold RETRY_INTERVAL_MIN, RETRY_INTERVAL_MAX in *. nia.
Qed.

End Runs.

(** ** Beyond the claims: the timer, the websocket, the prefixes *)

Section Guards.
Context `{PyRuntime}.

Lemma chars_ascii (s : string) :
  is_ascii_text s = true -> chars s = singletons s.
Proof.
  induction s as [ | a t IH]; simpl.
  - reflexivity.
  - destruct a as [b0 b1 b2 b3 b4 b5 b6 b7].
    intros Hascii. apply andb_true_iff in Hascii as [Hb7 Ht].
    rewrite (IH Ht). destruct t as [ | b t']; simpl.
    + reflexivity.
    + simpl in Ht. destruct b as [c0 c1 c2 c3 c4 c5 c6 c7].
      apply andb_true_iff in Ht as [Hc7 _].
      apply negb_true_iff in Hc7. subst c7. now destruct c6.
Qed.

Lemma startswith_any_stops (text : string) (ps : list string)
    (rest : list json) :
  ignored ps text = true ->
  startswith_any text (map JStr ps ++ rest) = Ok true.
Proof.
  unfold ignored. induction ps as [ | p ps IH]; simpl.
  - discriminate.
  - destruct (String.prefix p text); [ reflexivity | exact IH ].
Qed.

Lemma startswith_any_reaches (text : string) (ps : list string)
    (v : json) (rest : list json) :
  ignored ps text = false ->
  (forall s, v <> JStr s) ->
  startswith_any text (map JStr ps ++ v :: rest) = Raise TypeError.
Proof.
  unfold ignored. intros Hnone Hv. induction ps as [ | p ps IH]; simpl.
  - destruct v; try reflexivity. now elim (Hv s).
  - simpl in Hnone. apply orb_false_iff in Hnone as [Hp Hps].
    rewrite Hp. now apply IH.
Qed.

(** What [on_player_input] does with a chat line it listens to. *)
Lemma on_player_input_listened
    (player : Player) (text : string) (self : MultiChatWS) :
  text <> "!multichat connect" ->
  truthy (do_listen self) = true ->
  is_console player = false ->
  on_player_input (player, text) self =
    match iterate (ignore_prefix self) with
    | Raise e =>
        Raised e self [logger debug "MultiChat.on_player_input called"]
    | Ok prefixes =>
        match startswith_any text prefixes with
        | Raise e =>
            Raised e self [logger debug "MultiChat.on_player_input called"]
        | Ok true =>
            Returned tt self [logger debug "MultiChat.on_player_input called"]
        | Ok false =>
            Returned tt self
              (logger debug "MultiChat.on_player_input called"
                 :: calls_of
                      (send_msg ("<" ++ name player ++ "> " ++ text) self))
        end
    end.
Proof.
  intros Hother Hlisten Hplayer. apply String.eqb_neq in Hother.
  unfold on_player_input, bind, get, emit, lift, ret, raise. simpl.
  rewrite Hother, Hlisten. simpl. rewrite Hplayer. simpl.
  destruct (iterate (ignore_prefix self)) as [prefixes | e]; simpl;
    [ | reflexivity ].
  destruct (startswith_any text prefixes) as [[ | ] | e]; simpl;
    try reflexivity.
  unfold send_msg, bind, get, emit. now destruct (ws_valid self).
Qed.

(** X11: whenever the retry timer of an object the event loop can reach is
    running, its interval lies between 5000 and 3600000: it is started by
    the loss of the connection alone, with the retry interval of that
    moment, and the other slots leave it or stop it. *)
Theorem running_timer_is_within_bounds (self : MultiChatWS) :
  reachable self ->
  isActive (retry_timer self) = true ->
  5000 <= interval (retry_timer self) <= 3600000.
Proof.
  intros Hreach. change (timer_in_range self).
  induction Hreach as [utils cfg self calls Hbuilt | e self Hreach IH].
  - destruct (init_enabled_fields _ _ _ _ Hbuilt)
      as (d & s & -> & Hutils & Hurl & Hkey & Hlisten & Hpost & Hprefix & Hname
          & Hconfig & Hself & Hlang & Hvalid & Hmin & Htimer & Hcalls).
    unfold timer_in_range. rewrite Htimer. discriminate.
  - apply reachable_invariant in Hreach as [Hrange _].
    rewrite deliver_state. unfold timer_in_range in *.
    destruct e as [ | message | | | [player text] | | | | ]; simpl;
      try exact IH.
    + now destruct (is_register_ack message).
    + intros _. exact Hrange.
    + discriminate.
    + destruct (String.eqb text "!multichat connect" && negb (ws_valid self));
        simpl; [ discriminate | exact IH ].
Qed.

(** X12: the websocket is opened by the retry timeout and by the reconnect
    command of an unregistered object, once each, and by no other slot; and
    over any run of signals it is only ever opened at the url of the
    object. *)
Theorem websocket_is_opened_at_the_url_only :
  (forall e self,
     openings (calls_of (slot e self)) =
       match e with
       | timeout => [url self]
       | sig_input (player, text) =>
           if String.eqb text "!multichat connect" && negb (ws_valid self)
           then [url self]
           else []
       | _ => []
       end)
  /\ (forall es self,
        Forall (fun u => u = url self) (openings (trace es self))).
Proof.
  split; [ exact slot_openings | ].
  induction es as [ | e es IH]; intros self; simpl.
  - constructor.
  - destruct (observations_app (calls_of (slot e self))
                (trace es (deliver e self))) as [_ [-> _]].
    apply Forall_app. split.
    + rewrite slot_openings.
      destruct e as [ | message | | | [player text] | | | | ];
        repeat constructor.
      destruct (String.eqb text "!multichat connect" && negb (ws_valid self));
        repeat constructor.
    + destruct (deliver_key_url e self) as [_ Hurl].
      rewrite <- Hurl. apply IH.
Qed.

(** X13: an empty text among the ignored prefixes silences the chat: every
    text starts with it, so no chat line is forwarded, whoever says it. *)
Theorem empty_prefix_silences_chat
    (player : Player) (text : string) (prefixes : list string)
    (self : MultiChatWS) :
  text <> "!multichat connect" ->
  ignore_prefix self = JList (map JStr prefixes) ->
  In "" prefixes ->
  on_player_input (player, text) self
  = Returned tt self [logger debug "MultiChat.on_player_input called"].
Proof.
  intros Hother Hprefixes Hempty.
  rewrite (on_player_input_chat player text prefixes self Hother Hprefixes).
  assert (Hignored : ignored prefixes text = true).
  { unfold ignored. apply existsb_exists. exists "". split; [ exact Hempty | ].
    now destruct text. }
  rewrite Hignored, andb_false_r. reflexivity.
Qed.

(** X14: the prefixes are checked as the loop meets them.  When
    ['ignore-prefix'] is no list, text or dict, a chat line that is
    listened to raises [TypeError]; when it is a list holding something
    that is no text, the line raises [TypeError] if no prefix before that
    item matches, and is quietly ignored if one does.  Nothing is forwarded
    in any of these cases. *)
Theorem ill_typed_prefixes_raise
    (player : Player) (text : string) (self : MultiChatWS) :
  text <> "!multichat connect" ->
  truthy (do_listen self) = true ->
  is_console player = false ->
  (is_scalar (ignore_prefix self) = true ->
   on_player_input (player, text) self
   = Raised TypeError self [logger debug "MultiChat.on_player_input called"])
  /\ (forall ps v rest,
        ignore_prefix self = JList (map JStr ps ++ v :: rest) ->
        (forall s, v <> JStr s) ->
        on_player_input (player, text) self
        = if ignored ps text
          then Returned tt self
                 [logger debug "MultiChat.on_player_input called"]
          else Raised TypeError self
                 [logger debug "MultiChat.on_player_input called"]).
Proof.
  intros Hother Hlisten Hplayer.
  rewrite (on_player_input_listened player text self Hother Hlisten Hplayer).
  split.
  - intros Hscalar. destruct (ignore_prefix self); try discriminate;
      reflexivity.
  - intros ps v rest Hprefixes Hv. rewrite Hprefixes. simpl.
    destruct (ignored ps text) eqn:Hignored.
    + now rewrite startswith_any_stops.
    + now rewrite startswith_any_reaches.
Qed.

(** X15: a text given as ['ignore-prefix'] in place of a list is read
    character by character: with an ASCII text [s], a chat line that is
    listened to is ignored exactly when it starts with one of the
    characters of [s], and is handed to [send_msg] otherwise. *)
Theorem text_prefix_is_read_by_character
    (player : Player) (text s : string) (self : MultiChatWS) :
  text <> "!multichat connect" ->
  truthy (do_listen self) = true ->
  is_console player = false ->
  ignore_prefix self = JStr s ->
  is_ascii_text s = true ->
  on_player_input (player, text) self
  = if ignored (singletons s) text
    then Returned tt self [logger debug "MultiChat.on_player_input called"]
    else Returned tt self
           (logger debug "MultiChat.on_player_input called"
              :: calls_of (send_msg ("<" ++ name player ++ "> " ++ text) self)).
Proof.
  intros Hother Hlisten Hplayer Hprefix Hascii.
  rewrite (on_player_input_listened player text self Hother Hlisten Hplayer).
  rewrite Hprefix. simpl. rewrite (chars_ascii s Hascii).
  rewrite startswith_any_texts. reflexivity.
Qed.

(** X16: the object is registered exactly from an acknowledgement to the
    next loss of the connection.  After a loss it stays unregistered until
    an acknowledgement arrives; after an acknowledgement it stays
    registered until the connection is lost; and a freshly built object is
    unregistered until its first acknowledgement. *)
Theorem registered_from_ack_to_loss :
  (forall es1 es2 self,
     forallb not_ack es2 = true ->
     ws_valid (run (es1 ++ disconnected :: es2) self) = false)
  /\ (forall es1 message es2 self,
        is_register_ack message = true ->
        forallb (fun e => negb (is_disconnected e)) es2 = true ->
        ws_valid (run (es1 ++ textMessageReceived message :: es2) self) = true)
  /\ (forall utils cfg self calls es,
        __init__ utils cfg = Enabled self calls ->
        forallb not_ack es = true ->
        ws_valid (run es self) = false).
Proof.
  split; [ | split ].
  - intros es1 es2 self Hes. rewrite run_app. simpl.
    fold (run es2 (deliver disconnected (run es1 self))).
    apply run_unregistered; [ | exact Hes ].
    now rewrite deliver_ws_valid.
  - intros es1 message es2 self Hack Hes. rewrite run_app. simpl.
    fold (run es2 (deliver (textMessageReceived message) (run es1 self))).
    apply run_registered; [ | exact Hes ].
    now rewrite deliver_ws_valid, Hack.
  - intros utils cfg self calls es Hbuilt Hes.
    apply run_unregistered; [ | exact Hes ].
    now destruct (init_enabled _ _ _ _ Hbuilt).
Qed.

End Guards.

(** ** The further theorems at the examples *)

Lemma french_is_built :
  @__init__ reference true french_config =
    Enabled french
      [logger warning "Not supported language: fr";
       logger info "Connecting to multichat server";
       tell at_a "multichat: connecting to server" None;
       ws_open "ws://hub.example/"].
Proof. reflexivity. Qed.

Lemma lost_reachable : @reachable reference (@deliver reference disconnected fresh).
Proof. exact (@reach_deliver reference disconnected fresh fresh_reachable). Defined.

(** The url of the example ends in two slashes. *)
Lemma url_ends_in_one_slash_witness :
  @__init__ reference true example_config
  = Enabled fresh
      [logger info "Connecting to multichat server";
       tell at_a "multichat: connecting to server" None;
       ws_open "ws://hub.example/relay/"]
  /\ exists s stem n,
       getitem example_config "multichat-url" = Ok (JStr s)
       /\ s = stem ++ replicate n "/"
       /\ ends_with "/" stem = false
       /\ url fresh = stem ++ "/"
       /\ ends_with "/" (url fresh) = true.
Proof.
  split; [ exact fresh_is_built | ].
  exact (@url_ends_in_one_slash reference _ _ _ _ fresh_is_built).
Defined.

Lemma lang_is_supported_witness :
  @__init__ reference true french_config
  = Enabled french
      [logger warning "Not supported language: fr";
       logger info "Connecting to multichat server";
       tell at_a "multichat: connecting to server" None;
       ws_open "ws://hub.example/"]
  /\ In (lang french) SUPPORTED_LANGUAGES.
Proof.
  split; [ exact french_is_built | ].
  exact (proj1 (@lang_is_supported reference _ _ _ _ french_is_built)).
Defined.

Lemma construction_opens_the_websocket_once_witness :
  lacks_required
    [("multichat-url", JStr "ws://hub.example/relay//");
     ("multichat-key", JStr "secret"); ("listen", JBool true);
     ("post", JBool true); ("ignore-prefix", JList [JStr "!"])] = false
  /\ openings
       [logger info "Connecting to multichat server";
        tell at_a "multichat: connecting to server" None;
        ws_open "ws://hub.example/relay/"] = [url fresh]
  /\ (exists self calls,
        @__init__ reference true example_config = Enabled self calls)
  /\ (exists calls,
        @__init__ reference false example_config = Disabled calls).
Proof.
  destruct (@construction_opens_the_websocket_once reference)
    as [Henabled [_ Hbuilds]].
  split; [ reflexivity | ].
  split.
  - destruct (Henabled _ _ _ _ fresh_is_built)
      as [_ [_ [_ [_ [Hopen _]]]]].
    exact Hopen.
  - split.
    + exact (Hbuilds true
               [("multichat-url", JStr "ws://hub.example/relay//");
                      ("multichat-key", JStr "secret"); ("listen", JBool true);
                      ("post", JBool true); ("ignore-prefix", JList [JStr "!"])]
               "ws://hub.example/relay//" eq_refl eq_refl).
    + exact (Hbuilds false
               [("multichat-url", JStr "ws://hub.example/relay//");
                      ("multichat-key", JStr "secret"); ("listen", JBool true);
                      ("post", JBool true); ("ignore-prefix", JList [JStr "!"])]
               "ws://hub.example/relay//" eq_refl eq_refl).
Defined.

Lemma settings_are_those_of_the_configuration_witness :
  @__init__ reference true french_config
  = Enabled french
      [logger warning "Not supported language: fr";
       logger info "Connecting to multichat server";
       tell at_a "multichat: connecting to server" None;
       ws_open "ws://hub.example/"]
  /\ server_name
       (@run reference
          [disconnected; timeout; connected; textMessageReceived ack_frame]
          french) = JStr "Survival".
Proof.
  split; [ exact french_is_built | ].
  destruct (@settings_are_those_of_the_configuration reference _ _ _ _
              [disconnected; timeout; connected; textMessageReceived ack_frame]
              french_is_built) as [_ [_ [_ [_ [_ [_ Hname]]]]]].
  exact Hname.
Defined.

Lemma notifications_bypass_listen_witness :
  @reachable reference registered
  /\ exists msg,
       (lang registered = "en" /\ msg = name Bob ++ " joined the game"
        \/ lang registered = "zh-cn" /\ msg = name Bob ++ "加入了游戏")
       /\ @on_player_login reference Bob registered
          = Returned tt registered
              (logger debug "MultiChat.on_player_login called"
                 :: calls_of (@send_msg reference msg registered)).
Proof.
  split; [ exact registered_reachable | ].
  exact (proj1 (@notifications_bypass_listen reference registered
                  registered_reachable) Bob).
Defined.

Lemma unregistered_object_only_registers_witness :
  ws_valid fresh = false
  /\ forallb (@not_ack reference)
       [sig_login Bob; sig_input (Bob, "hello"); timeout;
        textMessageReceived forwarding_frame] = true
  /\ transport_writes
       (@trace reference
          [sig_login Bob; sig_input (Bob, "hello"); timeout;
           textMessageReceived forwarding_frame] fresh) = [].
Proof.
  split; [ reflexivity | ].
  split; [ reflexivity | ].
  exact (proj2 (@unregistered_object_only_registers reference
                  [sig_login Bob; sig_input (Bob, "hello"); timeout;
                   textMessageReceived forwarding_frame]
                  fresh eq_refl eq_refl) eq_refl).
Defined.

Lemma other_actions_are_dropped_witness :
  @json_loads reference ping_frame = Ok (JDict [("action", JStr "ping")])
  /\ @on_recv reference ping_frame registered
     = Returned tt registered
         [logger debug ("WebSocket received: " ++ ping_frame)].
Proof.
  split; [ reflexivity | ].
  exact (@other_actions_are_dropped reference ping_frame
           (JDict [("action", JStr "ping")]) (JStr "ping") registered
           eq_refl eq_refl eq_refl eq_refl).
Defined.

Lemma backoff_doubles_to_the_cap_witness :
  retry_interval fresh <= RETRY_INTERVAL_MAX
  /\ @scheduled reference (repeat disconnected 4) fresh
     = [5000; 10000; 20000; 40000]
  /\ @reachable reference fresh
  /\ retry_interval (@run reference (repeat disconnected 10) fresh)
     = RETRY_INTERVAL_MAX.
Proof.
  destruct (@backoff_doubles_to_the_cap reference) as [_ [Hdelays Hcap]].
  assert (Hle : retry_interval fresh <= RETRY_INTERVAL_MAX)
    by (unfold RETRY_INTERVAL_MAX; simpl; lia).
  split; [ exact Hle | ].
  split; [ exact (Hdelays 4%nat fresh Hle) | ].
  split; [ exact fresh_reachable | ].
  apply (Hcap 10%nat fresh fresh_reachable). apply le_n.
Defined.

Lemma running_timer_is_within_bounds_witness :
  @reachable reference (@deliver reference disconnected fresh)
  /\ isActive (retry_timer (@deliver reference disconnected fresh)) = true
  /\ 5000 <= interval (retry_timer (@deliver reference disconnected fresh))
     <= 3600000.
Proof.
  split; [ exact lost_reachable | ].
  split; [ reflexivity | ].
  exact (@running_timer_is_within_bounds reference _ lost_reachable eq_refl).
Defined.

Lemma empty_prefix_silences_chat_witness :
  "hello" <> "!multichat connect"
  /\ ignore_prefix (with_prefixes (JList [JStr "!"; JStr ""]))
     = JList (map JStr ["!"; ""])
  /\ In "" ["!"; ""]
  /\ @on_player_input reference (Bob, "hello")
       (with_prefixes (JList [JStr "!"; JStr ""]))
     = Returned tt (with_prefixes (JList [JStr "!"; JStr ""]))
         [logger debug "MultiChat.on_player_input called"].
Proof.
  assert (Hother : "hello" <> "!multichat connect")
    by (apply String.eqb_neq; reflexivity).
  assert (Hin : In "" ["!"; ""]) by (right; left; reflexivity).
  split; [ exact Hother | ].
  split; [ reflexivity | ].
  split; [ exact Hin | ].
  exact (@empty_prefix_silences_chat reference Bob "hello" ["!"; ""]
           (with_prefixes (JList [JStr "!"; JStr ""])) Hother eq_refl Hin).
Defined.

Lemma ill_typed_prefixes_raise_witness :
  "hello" <> "!multichat connect"
  /\ is_scalar (ignore_prefix (with_prefixes JNone)) = true
  /\ @on_player_input reference (Bob, "hello") (with_prefixes JNone)
     = Raised TypeError (with_prefixes JNone)
         [logger debug "MultiChat.on_player_input called"]
  /\ @on_player_input reference (Bob, "hello")
       (with_prefixes (JList [JStr "!"; JInt 1]))
     = Raised TypeError (with_prefixes (JList [JStr "!"; JInt 1]))
         [logger debug "MultiChat.on_player_input called"].
Proof.
  assert (Hother : "hello" <> "!multichat connect")
    by (apply String.eqb_neq; reflexivity).
  split; [ exact Hother | ].
  split; [ reflexivity | ].
  split.
  - exact (proj1 (@ill_typed_prefixes_raise reference Bob "hello"
                    (with_prefixes JNone) Hother eq_refl eq_refl) eq_refl).
  - refine (proj2 (@ill_typed_prefixes_raise reference Bob "hello"
                     (with_prefixes (JList [JStr "!"; JInt 1]))
                     Hother eq_refl eq_refl)
              ["!"] (JInt 1) [] eq_refl _).
    intros s. discriminate.
Defined.

Lemma text_prefix_is_read_by_character_witness :
  "#hello" <> "!multichat connect"
  /\ is_ascii_text "!#" = true
  /\ @on_player_input reference (Bob, "#hello") (with_prefixes (JStr "!#"))
     = Returned tt (with_prefixes (JStr "!#"))
         [logger debug "MultiChat.on_player_input called"].
Proof.
  assert (Hother : "#hello" <> "!multichat connect")
    by (apply String.eqb_neq; reflexivity).
  split; [ exact Hother | ].
  split; [ reflexivity | ].
  exact (@text_prefix_is_read_by_character reference Bob "#hello" "!#"
           (with_prefixes (JStr "!#")) Hother eq_refl eq_refl eq_refl eq_refl).
Defined.

Lemma registered_from_ack_to_loss_witness :
  @is_register_ack reference ack_frame = true
  /\ ws_valid
       (@run reference
          ([connected] ++ textMessageReceived ack_frame
             :: [sig_login Bob; timeout]) fresh) = true
  /\ ws_valid
       (@run reference
          ([textMessageReceived ack_frame] ++ disconnected
             :: [timeout; connected]) fresh) = false.
Proof.
  destruct (@registered_from_ack_to_loss reference) as [Hlost [Hacked _]].
  split; [ reflexivity | ].
  split.
  - exact (Hacked [connected] ack_frame [sig_login Bob; timeout] fresh
             eq_refl eq_refl).
  - exact (Hlost [textMessageReceived ack_frame] [timeout; connected] fresh
             eq_refl).
Defined.
